(** * Shallow embedding of Mesa's DXIL validator wrapper and Panfrost pool upload

    Two translation units are embedded:

    - [DxilValidator]: the Windows DXIL validator wrapper ([load_dxil_mod],
      [create_dxc_validator], [dxil_create_validator],
      [dxil_destroy_validator], [ShaderBlob], [dxil_validate_module],
      [dxil_disasm_module]);
    - [PanPool]: [pan_pool_upload] and [pan_pool_upload_aligned] of
      src/panfrost/lib/pan_pool.c.

    The validator wrapper is straight-line code around calls into the
    operating system, the C runtime, ralloc and the DXC COM objects.  Those
    callees are collected in a record [World]; every call the code makes is
    logged, in program order, in a trace of [event]s, so that statements about
    ordering (what is released before what is unloaded) and about absence
    (nothing is unloaded, nothing is logged) are statements about lists. *)

From Stdlib Require Import ZArith List String Ascii Bool Lia.
Import ListNotations.

Local Open Scope Z_scope.

Module DxilValidator.

(** ** Machine data *)

(** Pointers and handles are addresses; the null pointer is address 0. *)
Definition ptr := Z.
Definition HMODULE := Z.
Definition NULL : Z := 0.

(** [if (p)] on a pointer. *)
Definition nonnull (p : Z) : bool := negb (p =? NULL).

(** [HRESULT] is a signed 32-bit status; [FAILED] and [SUCCEEDED] test its
    sign, as the Windows headers define them. *)
Definition HRESULT := Z.
Definition FAILED (hr : HRESULT) : bool := hr <? 0.
Definition SUCCEEDED (hr : HRESULT) : bool := 0 <=? hr.
Definition S_OK : HRESULT := 0.

(** [E_NOINTERFACE] is [0x80004002], read as a signed 32-bit value. *)
Definition E_NOINTERFACE : HRESULT := 0x80004002 - 2 ^ 32.

(** [MAX_PATH] of the Windows headers: [sizeof(self_path)]. *)
Definition MAX_PATH : Z := 260.

(** [size_t] arithmetic of the 64-bit target wraps modulo [2^64]. *)
Definition size_t_wrap (z : Z) : Z := z mod 2 ^ 64.

(** The class identifiers [dxil_create_validator] asks the factories for. *)
Inductive CLSID := CLSID_DxcValidator | CLSID_DxcLibrary | CLSID_DxcCompiler.

(** Line feed, for the messages that end in one. *)
Definition nl : string := String (ascii_of_nat 10) EmptyString.

(** ** C strings *)

Definition len (s : string) : Z := Z.of_nat (String.length s).

(** [strrchr(s, c)], as the offset of the last occurrence of [c]. *)
Fixpoint strrchr (s : string) (c : ascii) : option nat :=
  match s with
  | EmptyString => None
  | String a s' =>
      match strrchr s' c with
      | Some i => Some (S i)
      | None => if Ascii.eqb a c then Some O else None
      end
  end.

(** [*(s + i) = '\0']: the string now ends before offset [i]. *)
Definition cut_at (s : string) (i : nat) : string := substring 0 i s.

(** [strcat_s(dest, src)] on a [char dest[size]], as the C runtime documents
    it: zero and the concatenation when it fits together with its
    terminator; a non-zero [errno_t] and an emptied destination when it does
    not and the invalid-parameter handler lets execution go on. *)
Definition ERANGE : Z := 34.
Definition strcat_s (size : Z) (dest src : string) : Z * string :=
  if len dest + len src <? size then (0, (dest ++ src)%string)
  else (ERANGE, EmptyString).

(** ** The context structure *)

Record dxil_validator := mk_dxil_validator {
  dxil_mod : HMODULE;
  dxcompiler_mod : HMODULE;
  dxc_validator : ptr;
  dxc_library : ptr;
  dxc_compiler : ptr
}.

(** What [rzalloc] hands back: every field zero. *)
Definition zeroed : dxil_validator := mk_dxil_validator NULL NULL NULL NULL NULL.

(** ** The blob adapter *)

Record ShaderBlob := mk_ShaderBlob {
  m_data : ptr;
  m_size : Z
}.

(** ** Strings handed back to the caller *)

(** A [char *] result: null, a string in the arena (the bytes of the
    allocation, terminator included), or a pointer whose target the program
    does not determine. *)
Inductive cstr :=
| CNull
| CStr (bytes : list Byte.byte)
| CIndeterminate.

(** ** Events *)

Inductive event :=
| EvLoadLibraryA (path : string)
| EvGetModuleFileNameA (nSize : Z)
| EvGetProcAddress (module : HMODULE) (symbol : string)
| EvCreateInstance (factory : ptr) (clsid : CLSID)
| EvFreeLibrary (module : HMODULE)
| EvRelease (object : ptr)
| EvRzalloc (ctx : ptr)
| EvRallocFree
| EvRallocStrdup (parent : dxil_validator) (result : cstr)
| EvDebugPrintf (msg : string)
| EvFprintfStderr (msg : string)
| EvValidate (validator : ptr) (source : ShaderBlob)
| EvGetStatus (result : ptr)
| EvGetErrorBuffer (result : ptr)
| EvGetBlobAsUtf8 (library : ptr) (blob : ptr)
| EvDisassemble (compiler : ptr) (source : ShaderBlob)
| EvStoreError (value : cstr).

Definition trace := list event.

(** ** The monad: a value and the events emitted on the way *)

Definition M (A : Type) : Type := (A * trace)%type.

Definition ret {A} (a : A) : M A := (a, []).

Definition bind {A B} (m : M A) (k : A -> M B) : M B :=
  (fst (k (fst m)), snd m ++ snd (k (fst m))).

Definition emit (e : event) : M unit := (tt, [e]).

Definition call {A} (e : event) (a : A) : M A := (a, [e]).

Declare Scope dxil_scope.
Delimit Scope dxil_scope with dxil.
Notation "x <- c ;; k" := (bind c (fun x => k))
  (at level 100, c at next level, right associativity) : dxil_scope.
Notation "c ;;; k" := (bind c (fun _ => k))
  (at level 100, right associativity) : dxil_scope.
Local Open Scope dxil_scope.

(** ** The world outside the translation unit *)

Record World := mk_World {
  (** [LoadLibraryA(path)]: the module handle, or null. *)
  LoadLibraryA : string -> HMODULE;
  (** The full path of the module that contains [__ImageBase], or [None]
      when the system cannot tell. *)
  self_module_path : option string;
  (** [GetProcAddress(module, symbol)]: the entry point, or null. *)
  GetProcAddress : HMODULE -> string -> ptr;
  (** A factory entry point called on a class identifier: its status and
      the value it stores through the [void **] it is given. *)
  DxcCreateInstance : ptr -> CLSID -> HRESULT * ptr;
  (** Whether [rzalloc], and whether [ralloc_strdup], finds memory. *)
  rzalloc_succeeds : bool;
  ralloc_strdup_succeeds : bool;
  (** [IDxcValidator::Validate]: the operation result it stores.  The code
      ignores the status of the call itself and goes on to use the result,
      so a result is all the call yields here. *)
  Validate : ptr -> ShaderBlob -> ptr;
  (** [IDxcOperationResult::GetStatus]: the status it stores. *)
  GetStatus : ptr -> HRESULT;
  (** [IDxcOperationResult::GetErrorBuffer]: its own status, and the blob. *)
  GetErrorBuffer : ptr -> HRESULT * ptr;
  (** [IDxcLibrary::GetBlobAsUtf8]: its own status, and the bytes of the
      converted blob ([GetBufferSize] of them at [GetBufferPointer]). *)
  GetBlobAsUtf8 : ptr -> ptr -> HRESULT * list Byte.byte;
  (** [IDxcCompiler::Disassemble]: its own status, and the blob. *)
  Disassemble : ptr -> ShaderBlob -> HRESULT * ptr
}.

(** [GetModuleFileNameA(&__ImageBase, buf, nSize)] as Win32 documents it:
    0 on failure; the length of the path when path and terminator fit in
    [nSize] characters; otherwise [nSize], the buffer holding the first
    [nSize - 1] characters of the path.  The result pairs the return value
    with the C string left in the buffer. *)
Definition GetModuleFileNameA (w : World) (nSize : Z) : M (Z * string) :=
  call (EvGetModuleFileNameA nSize)
    match self_module_path w with
    | None => (0, EmptyString)
    | Some p =>
        if len p <? nSize then (len p, p)
        else (nSize, substring 0 (Z.to_nat (nSize - 1)) p)
    end.

Definition debug_printf (msg : string) : M unit := emit (EvDebugPrintf msg).
Definition fprintf_stderr (msg : string) : M unit := emit (EvFprintfStderr msg).

(** ** [load_dxil_mod] *)

Definition load_dxil_mod (w : World) : M HMODULE :=
  (* First, try to load DXIL.dll from the default search-path *)
  mod_ <- call (EvLoadLibraryA "DXIL.dll") (LoadLibraryA w "DXIL.dll") ;;
  if nonnull mod_ then ret mod_
  else
    (* If that fails, try to load it next to the current module *)
    r <- GetModuleFileNameA w MAX_PATH ;;
    let path_size := fst r in
    let self_path := snd r in
    if (path_size =? 0) || (path_size =? MAX_PATH) then
      debug_printf "DXIL: Unable to get path to self" ;;;
      ret NULL
    else
      match strrchr self_path "\"%char with
      | None =>
          debug_printf "DXIL: Unable to get path to self" ;;;
          ret NULL
      | Some last_slash =>
          let self_path := cut_at self_path (S last_slash) in
          let r := strcat_s MAX_PATH self_path "DXIL.dll" in
          if negb (fst r =? 0) then
            debug_printf "DXIL: Unable to get path to DXIL.dll next to self" ;;;
            ret NULL
          else
            call (EvLoadLibraryA (snd r)) (LoadLibraryA w (snd r))
      end.

(** ** [create_dxc_validator] *)

Definition create_dxc_validator (w : World) (dxil_mod : HMODULE) : M ptr :=
  dxil_create_func <-
    call (EvGetProcAddress dxil_mod "DxcCreateInstance")
         (GetProcAddress w dxil_mod "DxcCreateInstance") ;;
  if negb (nonnull dxil_create_func) then
    debug_printf ("DXIL: Failed to load DxcCreateInstance from DXIL.dll" ++ nl) ;;;
    ret NULL
  else
    r <- call (EvCreateInstance dxil_create_func CLSID_DxcValidator)
              (DxcCreateInstance w dxil_create_func CLSID_DxcValidator) ;;
    let hr := fst r in
    let dxc_validator := snd r in
    if FAILED hr then
      debug_printf ("DXIL: Failed to create validator" ++ nl) ;;;
      ret NULL
    else ret dxc_validator.

(** ** [dxil_create_validator] *)

Definition set_dxil_mod (val : dxil_validator) (h : HMODULE) :=
  mk_dxil_validator h (dxcompiler_mod val) (dxc_validator val)
                    (dxc_library val) (dxc_compiler val).
Definition set_dxcompiler_mod (val : dxil_validator) (h : HMODULE) :=
  mk_dxil_validator (dxil_mod val) h (dxc_validator val)
                    (dxc_library val) (dxc_compiler val).
Definition set_dxc_validator (val : dxil_validator) (p : ptr) :=
  mk_dxil_validator (dxil_mod val) (dxcompiler_mod val) p
                    (dxc_library val) (dxc_compiler val).
Definition set_dxc_library (val : dxil_validator) (p : ptr) :=
  mk_dxil_validator (dxil_mod val) (dxcompiler_mod val) (dxc_validator val)
                    p (dxc_compiler val).
Definition set_dxc_compiler (val : dxil_validator) (p : ptr) :=
  mk_dxil_validator (dxil_mod val) (dxcompiler_mod val) (dxc_validator val)
                    (dxc_library val) p.

Definition FreeLibrary (h : HMODULE) : M unit := emit (EvFreeLibrary h).
Definition Release (p : ptr) : M unit := emit (EvRelease p).
Definition ralloc_free : M unit := emit EvRallocFree.

(** The [fail:] label. *)
Definition create_fail (val : dxil_validator) : M (option dxil_validator) :=
  (if nonnull (dxil_mod val) then FreeLibrary (dxil_mod val) else ret tt) ;;;
  ralloc_free ;;;
  ret None.

(** The block guarded by [if (val->dxcompiler_mod)]. *)
Definition create_diagnostics (w : World) (val : dxil_validator)
  : M dxil_validator :=
  compiler_create_func <-
    call (EvGetProcAddress (dxcompiler_mod val) "DxcCreateInstance")
         (GetProcAddress w (dxcompiler_mod val) "DxcCreateInstance") ;;
  if negb (nonnull compiler_create_func) then
    debug_printf ("DXIL: Failed to load DxcCreateInstance from dxcompiler.dll" ++ nl) ;;;
    ret val
  else
    r <- call (EvCreateInstance compiler_create_func CLSID_DxcLibrary)
              (DxcCreateInstance w compiler_create_func CLSID_DxcLibrary) ;;
    let val := set_dxc_library val (snd r) in
    (if FAILED (fst r) then
       debug_printf ("DXIL: Unable to create IDxcLibrary instance" ++ nl)
     else ret tt) ;;;
    r <- call (EvCreateInstance compiler_create_func CLSID_DxcCompiler)
              (DxcCreateInstance w compiler_create_func CLSID_DxcCompiler) ;;
    let val := set_dxc_compiler val (snd r) in
    (if FAILED (fst r) then
       debug_printf ("DXIL: Unable to create IDxcCompiler instance" ++ nl)
     else ret tt) ;;;
    ret val.

(** [NULL] is [None]; a context is returned by value, as the fields it has
    when the function returns. *)
Definition dxil_create_validator (w : World) (ctx : ptr)
  : M (option dxil_validator) :=
  emit (EvRzalloc ctx) ;;;
  if negb (rzalloc_succeeds w) then ret None
  else
    let val := zeroed in
    (* Load DXIL.dll. This is a hard requirement on Windows *)
    h <- load_dxil_mod w ;;
    let val := set_dxil_mod val h in
    if negb (nonnull (dxil_mod val)) then
      debug_printf ("DXIL: Failed to load DXIL.dll" ++ nl) ;;;
      create_fail val
    else
      (* Create IDxcValidator. This is a hard requirement on Windows *)
      v <- create_dxc_validator w (dxil_mod val) ;;
      let val := set_dxc_validator val v in
      if negb (nonnull (dxc_validator val)) then create_fail val
      else
        (* Try to load dxcompiler.dll. This is just used for diagnostics *)
        h <- call (EvLoadLibraryA "dxcompiler.dll")
                  (LoadLibraryA w "dxcompiler.dll") ;;
        let val := set_dxcompiler_mod val h in
        if nonnull (dxcompiler_mod val) then
          val <- create_diagnostics w val ;;
          ret (Some val)
        else ret (Some val).

(** ** [dxil_destroy_validator] *)

Definition dxil_destroy_validator (val : dxil_validator) : M unit :=
  (* if we have a validator, we have these *)
  Release (dxc_validator val) ;;;
  FreeLibrary (dxil_mod val) ;;;
  (if nonnull (dxcompiler_mod val) then
     (if nonnull (dxc_library val) then Release (dxc_library val) else ret tt) ;;;
     (if nonnull (dxc_compiler val) then Release (dxc_compiler val) else ret tt) ;;;
     FreeLibrary (dxcompiler_mod val)
   else ret tt) ;;;
  ralloc_free.

(** ** [ShaderBlob]

    Each method takes the object and gives back its result and the object
    as the call leaves it.  [QueryInterface] ignores both of its arguments
    and stores nothing through the second. *)

Definition GetBufferPointer (b : ShaderBlob) : ptr * ShaderBlob := (m_data b, b).
Definition GetBufferSize (b : ShaderBlob) : Z * ShaderBlob := (m_size b, b).
Definition QueryInterface (b : ShaderBlob) (riid : Z) (ppv : ptr)
  : HRESULT * ShaderBlob := (E_NOINTERFACE, b).
Definition AddRef (b : ShaderBlob) : Z * ShaderBlob := (1, b).
Definition ShaderBlob_Release (b : ShaderBlob) : Z * ShaderBlob := (0, b).

(** A consumer's call on the blob, and what it gets back. *)
Inductive blob_call :=
| CallGetBufferPointer
| CallGetBufferSize
| CallQueryInterface (riid : Z) (ppv : ptr)
| CallAddRef
| CallRelease.

Inductive blob_ret :=
| RetLPVOID (p : ptr)
| RetSIZE_T (n : Z)
| RetHRESULT (hr : HRESULT)
| RetULONG (n : Z).

Definition blob_step (b : ShaderBlob) (c : blob_call) : blob_ret * ShaderBlob :=
  match c with
  | CallGetBufferPointer => let r := GetBufferPointer b in (RetLPVOID (fst r), snd r)
  | CallGetBufferSize => let r := GetBufferSize b in (RetSIZE_T (fst r), snd r)
  | CallQueryInterface riid ppv =>
      let r := QueryInterface b riid ppv in (RetHRESULT (fst r), snd r)
  | CallAddRef => let r := AddRef b in (RetULONG (fst r), snd r)
  | CallRelease => let r := ShaderBlob_Release b in (RetULONG (fst r), snd r)
  end.

Fixpoint blob_run (b : ShaderBlob) (cs : list blob_call)
  : list blob_ret * ShaderBlob :=
  match cs with
  | [] => ([], b)
  | c :: cs' =>
      let r := blob_step b c in
      let rs := blob_run (snd r) cs' in
      (fst r :: fst rs, snd rs)
  end.

(** ** Terminating and copying the converted text *)

(** [str[i] = b] on a buffer of [length buf] bytes: [None] when the store
    falls outside the buffer. *)
Definition store_byte (buf : list Byte.byte) (i : Z) (b : Byte.byte)
  : option (list Byte.byte) :=
  if (0 <=? i) && (i <? Z.of_nat (List.length buf)) then
    Some (firstn (Z.to_nat i) buf ++ b :: skipn (S (Z.to_nat i)) buf)
  else None.

(** [strlen]: [None] when no terminator lies inside the buffer. *)
Fixpoint strlen (buf : list Byte.byte) : option nat :=
  match buf with
  | [] => None
  | b :: rest =>
      if Byte.eqb b Byte.x00 then Some O else option_map S (strlen rest)
  end.

(** Modelled from the spec: [ralloc_strdup] of util/ralloc.h, which is not
    among the sources.  It copies the text into the allocation arena, as a
    child of [val], as a null-terminated string: the bytes up to the first
    zero, and a terminator.  Like [rzalloc] it yields null when the arena
    has no memory.  Without a zero inside the buffer the copy would read
    past its end, and the result is [CIndeterminate]. *)
Definition ralloc_strdup (w : World) (val : dxil_validator)
    (str : list Byte.byte) : M cstr :=
  let r :=
    if negb (ralloc_strdup_succeeds w) then CNull
    else match strlen str with
         | Some n => CStr (firstn n str ++ [Byte.x00])
         | None => CIndeterminate
         end in
  call (EvRallocStrdup val r) r.

(** The three lines shared by validation and disassembly:
    [str = GetBufferPointer(); str[GetBufferSize() - 1] = 0;
     ralloc_strdup(val, str)].
    With [GetBufferSize() == 0] the index wraps to [SIZE_MAX] and the store
    lands outside the buffer; C gives that store no meaning, and what the
    copy then reads is not the program's to say: the result is
    [CIndeterminate]. *)
Definition terminate_and_strdup (w : World) (val : dxil_validator)
    (blob_utf8 : list Byte.byte) : M cstr :=
  let size := Z.of_nat (List.length blob_utf8) in
  match store_byte blob_utf8 (size_t_wrap (size - 1)) Byte.x00 with
  | Some str => ralloc_strdup w val str
  | None => call (EvRallocStrdup val CIndeterminate) CIndeterminate
  end.

(** [if (error)] on the [char **] argument. *)
Definition requested (error : option cstr) : bool :=
  match error with
  | Some _ => true
  | None => false
  end.

(** ** [dxil_validate_module]

    [error] is the [char **] argument: [None] for a null pointer, [Some e]
    for a pointer to a [char *] that holds [e] on entry.  The result pairs
    the returned [bool] with what that [char *] holds on return.  The
    [ComPtr] locals release the result and the blobs when they go out of
    scope; those objects live within the call and their releases are not
    logged. *)
Definition dxil_validate_module (w : World) (val : dxil_validator)
    (data : ptr) (size : Z) (error : option cstr) : M (bool * option cstr) :=
  let source := mk_ShaderBlob data size in
  result <- call (EvValidate (dxc_validator val) source)
                 (Validate w (dxc_validator val) source) ;;
  hr <- call (EvGetStatus result) (GetStatus w result) ;;
  if FAILED hr && requested error then
    (* try to resolve error message *)
    emit (EvStoreError CNull) ;;;
    if negb (nonnull (dxc_library val)) then
      debug_printf ("DXIL: validation failed, but lacking IDxcLibrary"
                    ++ "from dxcompiler.dll for proper diagnostics." ++ nl) ;;;
      ret (false, Some CNull)
    else
      r <- call (EvGetErrorBuffer result) (GetErrorBuffer w result) ;;
      if FAILED (fst r) then
        fprintf_stderr ("DXIL: IDxcOperationResult::GetErrorBuffer() failed" ++ nl) ;;;
        ret (SUCCEEDED hr, Some CNull)
      else
        r' <- call (EvGetBlobAsUtf8 (dxc_library val) (snd r))
                   (GetBlobAsUtf8 w (dxc_library val) (snd r)) ;;
        if FAILED (fst r') then
          fprintf_stderr ("DXIL: IDxcLibrary::GetBlobAsUtf8() failed" ++ nl) ;;;
          ret (SUCCEEDED hr, Some CNull)
        else
          s <- terminate_and_strdup w val (snd r') ;;
          emit (EvStoreError s) ;;;
          ret (SUCCEEDED hr, Some s)
  else ret (SUCCEEDED hr, error).

(** ** [dxil_disasm_module] *)

Definition dxil_disasm_module (w : World) (val : dxil_validator)
    (data : ptr) (size : Z) : M cstr :=
  if negb (nonnull (dxc_compiler val)) || negb (nonnull (dxc_library val)) then
    fprintf_stderr ("DXIL: disassembly requires IDxcLibrary and "
                    ++ "IDxcCompiler from dxcompiler.dll" ++ nl) ;;;
    ret CNull
  else
    let source := mk_ShaderBlob data size in
    r <- call (EvDisassemble (dxc_compiler val) source)
              (Disassemble w (dxc_compiler val) source) ;;
    if FAILED (fst r) then
      fprintf_stderr ("DXIL: IDxcCompiler::Disassemble() failed" ++ nl) ;;;
      ret CNull
    else
      r' <- call (EvGetBlobAsUtf8 (dxc_library val) (snd r))
                 (GetBlobAsUtf8 w (dxc_library val) (snd r)) ;;
      if FAILED (fst r') then
        fprintf_stderr ("DXIL: IDxcLibrary::GetBlobAsUtf8() failed" ++ nl) ;;;
        ret CNull
      else terminate_and_strdup w val (snd r').

(** ** Reading a trace *)

(** The objects released, the modules unloaded, the messages logged and the
    values stored through [error], each in program order. *)
Fixpoint released (t : trace) : list ptr :=
  match t with
  | [] => []
  | EvRelease p :: t' => p :: released t'
  | _ :: t' => released t'
  end.

Fixpoint unloaded (t : trace) : list HMODULE :=
  match t with
  | [] => []
  | EvFreeLibrary h :: t' => h :: unloaded t'
  | _ :: t' => unloaded t'
  end.

Fixpoint warnings (t : trace) : list string :=
  match t with
  | [] => []
  | EvDebugPrintf msg :: t' => msg :: warnings t'
  | EvFprintfStderr msg :: t' => msg :: warnings t'
  | _ :: t' => warnings t'
  end.

Fixpoint stores (t : trace) : list cstr :=
  match t with
  | [] => []
  | EvStoreError v :: t' => v :: stores t'
  | _ :: t' => stores t'
  end.

(** The factory calls made, as the class identifiers asked for. *)
Fixpoint instantiated (t : trace) : list CLSID :=
  match t with
  | [] => []
  | EvCreateInstance _ c :: t' => c :: instantiated t'
  | _ :: t' => instantiated t'
  end.

Definition is_release (e : event) : bool :=
  match e with EvRelease _ => true | _ => false end.

(** No object is released once a module has been unloaded. *)
Fixpoint releases_precede_unloads (t : trace) : bool :=
  match t with
  | [] => true
  | EvFreeLibrary _ :: t' =>
      negb (existsb is_release t') && releases_precede_unloads t'
  | _ :: t' => releases_precede_unloads t'
  end.

(** The bytes of a buffer that precede its first zero byte. *)
Fixpoint until_nul (l : list Byte.byte) : list Byte.byte :=
  match l with
  | [] => []
  | b :: rest => if Byte.eqb b Byte.x00 then [] else b :: until_nul rest
  end.

(** Whether every diagnostics step of a failed validation succeeds: the
    library service is there, the error buffer can be had, and it converts. *)
Definition diagnostics_succeed (w : World) (val : dxil_validator)
    (result : ptr) : bool :=
  nonnull (dxc_library val)
  && negb (FAILED (fst (GetErrorBuffer w result)))
  && negb (FAILED (fst (GetBlobAsUtf8 w (dxc_library val)
                                      (snd (GetErrorBuffer w result))))).

(** The service references a context holds, in the order
    [dxil_create_validator] acquires them. *)
Definition held_services (val : dxil_validator) : list ptr :=
  filter nonnull [dxc_validator val; dxc_library val; dxc_compiler val].

(** The events common to every run that falls back to the self path. *)
Definition fallback_prefix : trace :=
  [EvLoadLibraryA "DXIL.dll"; EvGetModuleFileNameA MAX_PATH].

(** A factory that fails stores null through the pointer it was given, as
    COM asks of every such entry point. *)
Definition stores_null_on_failure (w : World) : Prop :=
  forall f c,
    FAILED (fst (DxcCreateInstance w f c)) = true ->
    snd (DxcCreateInstance w f c) = NULL.

(** What each call on a blob gives back. *)
Definition blob_answer (b : ShaderBlob) (c : blob_call) : blob_ret :=
  match c with
  | CallGetBufferPointer => RetLPVOID (m_data b)
  | CallGetBufferSize => RetSIZE_T (m_size b)
  | CallQueryInterface _ _ => RetHRESULT E_NOINTERFACE
  | CallAddRef => RetULONG 1
  | CallRelease => RetULONG 0
  end.

(** ** Resources in a trace *)

(** The modules the [LoadLibraryA] calls of a trace yielded: a call that
    yields null loads nothing. *)
Fixpoint loaded (w : World) (t : trace) : list HMODULE :=
  match t with
  | [] => []
  | EvLoadLibraryA path :: t' =>
      filter nonnull [LoadLibraryA w path] ++ loaded w t'
  | _ :: t' => loaded w t'
  end.

(** The objects the factory calls of a trace stored: a call that stores
    null hands out nothing. *)
Fixpoint created (w : World) (t : trace) : list ptr :=
  match t with
  | [] => []
  | EvCreateInstance f c :: t' =>
      filter nonnull [snd (DxcCreateInstance w f c)] ++ created w t'
  | _ :: t' => created w t'
  end.

(** What the [ralloc_strdup] calls of a trace handed back. *)
Fixpoint allocations (t : trace) : list cstr :=
  match t with
  | [] => []
  | EvRallocStrdup _ r :: t' => r :: allocations t'
  | _ :: t' => allocations t'
  end.

(** The paths given to [LoadLibraryA]. *)
Fixpoint load_attempts (t : trace) : list string :=
  match t with
  | [] => []
  | EvLoadLibraryA path :: t' => path :: load_attempts t'
  | _ :: t' => load_attempts t'
  end.

(** The bytes of a string handed back, none for null or indeterminate. *)
Definition bytes_of (s : cstr) : list Byte.byte :=
  match s with
  | CStr bytes => bytes
  | _ => []
  end.


(** Runs the writer monad on the spot. *)
Ltac run :=
  unfold debug_printf, fprintf_stderr, FreeLibrary, Release, ralloc_free;
  unfold bind, ret, emit, call;
  cbn [fst snd app].

End DxilValidator.

(** * Panfrost pool upload *)

Module PanPool.

(** [mali_ptr] is a 64-bit GPU address; [struct panfrost_ptr] pairs the CPU
    mapping of an allocation with its GPU address. *)
Definition mali_ptr := Z.

Record panfrost_ptr := mk_panfrost_ptr {
  cpu : Z;
  gpu : mali_ptr
}.

(** CPU memory, byte by byte. *)
Definition memory := Z -> Byte.byte.

(** [memcpy(dst, src, n)]: the [n] bytes at [dst] become those at [src]. *)
Definition memcpy (m : memory) (dst src n : Z) : memory :=
  fun a => if (dst <=? a) && (a <? dst + n) then m (src + (a - dst)) else m a.

(** Conversion of an argument to a parameter of type [unsigned]. *)
Definition to_unsigned (z : Z) : Z := z mod 2 ^ 32.

Section Pool.

(** [struct pan_pool] and its allocator are declared in pan_pool.h and
    defined elsewhere; the allocator updates the pool and yields the
    transfer. *)
Variable pan_pool : Type.
Variable pan_pool_alloc_aligned : pan_pool -> Z -> Z -> pan_pool * panfrost_ptr.

(** The result is the returned [mali_ptr], the pool and the memory as the
    call leaves them.  [alignment] is an [unsigned] parameter: whatever the
    caller passes is converted on entry. *)
Definition pan_pool_upload_aligned (pool : pan_pool) (m : memory)
    (data sz alignment : Z) : mali_ptr * pan_pool * memory :=
  let alignment := to_unsigned alignment in
  let r := pan_pool_alloc_aligned pool sz alignment in
  let transfer := snd r in
  (gpu transfer, fst r, memcpy m (cpu transfer) data sz).

Definition pan_pool_upload (pool : pan_pool) (m : memory) (data sz : Z)
  : mali_ptr * pan_pool * memory :=
  pan_pool_upload_aligned pool m data sz sz.

End Pool.

End PanPool.

(** * A concrete pool *)

Module PanPoolExamples.

Import PanPool.

(** A pool that is one buffer mapped at CPU address [0x1000] and GPU
    address [0x8000], with the offset of its first free byte as its state:
    an allocation rounds the offset up to the alignment (taken as 1 when it
    is 0) and moves it past the allocation. *)
Definition bump_alloc (offset sz alignment : Z) : Z * panfrost_ptr :=
  let al := if alignment =? 0 then 1 else alignment in
  let start := ((offset + al - 1) / al) * al in
  (start + sz, mk_panfrost_ptr (0x1000 + start) (0x8000 + start)).

(** Memory holding the byte [0x2a] at every address. *)
Definition filled : memory := fun _ => Byte.x2a.

End PanPoolExamples.

(** * Concrete worlds *)

Module DxilExamples.

Import DxilValidator.
Local Open Scope string_scope.

Definition E_FAIL : HRESULT := 0x80004005 - 2 ^ 32.

(** Handles and objects of the example installation. *)
Definition h_dxil : HMODULE := 100.
Definition h_dxcompiler : HMODULE := 200.
Definition f_dxil : ptr := 101.
Definition f_dxcompiler : ptr := 201.
Definition o_validator : ptr := 110.
Definition o_library : ptr := 210.
Definition o_compiler : ptr := 220.

(** Bytecode at address 1 validates; any other is rejected. *)
Definition good_bytecode : ptr := 1.
Definition bad_bytecode : ptr := 2.
Definition r_accepted : ptr := 300.
Definition r_rejected : ptr := 301.
Definition b_errors : ptr := 400.
Definition b_disasm : ptr := 500.

(** An installation described by which modules load from where, what the
    running module's path is, which factory calls succeed and what text the
    conversion yields. *)
Record install := mk_install {
  dxil_on_search_path : bool;
  dxil_next_to_self : bool;
  self_path : option string;
  dxil_has_factory : bool;
  validator_hr : HRESULT;
  dxcompiler_present : bool;
  dxcompiler_has_factory : bool;
  library_hr : HRESULT;
  compiler_hr : HRESULT;
  get_error_buffer_hr : HRESULT;
  get_blob_as_utf8_hr : HRESULT;
  converted_text : list Byte.byte
}.

Definition world_of (i : install) : World :=
  {| LoadLibraryA := fun path =>
       if String.eqb path "DXIL.dll" then
         if dxil_on_search_path i then h_dxil else NULL
       else if String.eqb path "C:\mesa\DXIL.dll" then
         if dxil_next_to_self i then h_dxil else NULL
       else if String.eqb path "dxcompiler.dll" then
         if dxcompiler_present i then h_dxcompiler else NULL
       else NULL;
     self_module_path := self_path i;
     GetProcAddress := fun module symbol =>
       if String.eqb symbol "DxcCreateInstance" then
         if (module =? h_dxil)%Z then
           if dxil_has_factory i then f_dxil else NULL
         else if (module =? h_dxcompiler)%Z then
           if dxcompiler_has_factory i then f_dxcompiler else NULL
         else NULL
       else NULL;
     DxcCreateInstance := fun factory clsid =>
       match clsid with
       | CLSID_DxcValidator =>
           if FAILED (validator_hr i) then (validator_hr i, NULL)
           else (validator_hr i, o_validator)
       | CLSID_DxcLibrary =>
           if FAILED (library_hr i) then (library_hr i, NULL)
           else (library_hr i, o_library)
       | CLSID_DxcCompiler =>
           if FAILED (compiler_hr i) then (compiler_hr i, NULL)
           else (compiler_hr i, o_compiler)
       end;
     rzalloc_succeeds := true;
     ralloc_strdup_succeeds := true;
     Validate := fun _ source =>
       if (m_data source =? good_bytecode)%Z then r_accepted else r_rejected;
     GetStatus := fun result =>
       if (result =? r_accepted)%Z then S_OK else E_FAIL;
     GetErrorBuffer := fun _ => (get_error_buffer_hr i, b_errors);
     GetBlobAsUtf8 := fun _ _ => (get_blob_as_utf8_hr i, converted_text i);
     Disassemble := fun _ source =>
       if (m_data source =? good_bytecode)%Z then (S_OK, b_disasm)
       else (E_FAIL, NULL) |}.

Definition text (s : string) : list Byte.byte := list_byte_of_string s.

(** Everything installed, DXIL.dll on the search path. *)
Definition full_install : install :=
  mk_install true false (Some "C:\mesa\opengl32.dll") true S_OK
             true true S_OK S_OK S_OK S_OK (text "error: bad" ++ [Byte.x00])%list.

Definition full_world : World := world_of full_install.

(** The context [dxil_create_validator] builds in [full_world]. *)
Definition full_context : dxil_validator :=
  mk_dxil_validator h_dxil h_dxcompiler o_validator o_library o_compiler.

(** The usual end-user machine: no dxcompiler.dll. *)
Definition bare_install : install :=
  mk_install true false (Some "C:\mesa\opengl32.dll") true S_OK
             false false S_OK S_OK S_OK S_OK [].

Definition bare_world : World := world_of bare_install.

Definition bare_context : dxil_validator :=
  mk_dxil_validator h_dxil NULL o_validator NULL NULL.

(** DXIL.dll shipped next to the running module only. *)
Definition side_by_side_world : World :=
  world_of (mk_install false true (Some "C:\mesa\opengl32.dll") true S_OK
                       false false S_OK S_OK S_OK S_OK []).

(** A string of [n] copies of [c]. *)
Fixpoint replicate (n : nat) (c : ascii) : string :=
  match n with
  | O => EmptyString
  | S n' => String c (replicate n' c)
  end.

(** A running module whose path has exactly [MAX_PATH] characters. *)
Definition long_self_path : string := ("C:\" ++ replicate 257 "a")%string.

Definition long_path_world : World :=
  world_of (mk_install false true (Some long_self_path) true S_OK
                       false false S_OK S_OK S_OK S_OK []).

(** A running module whose directory leaves no room for the file name. *)
Definition deep_self_path : string := ("C:\" ++ replicate 250 "a" ++ "\x.dll")%string.

Definition deep_path_world : World :=
  world_of (mk_install false true (Some deep_self_path) true S_OK
                       false false S_OK S_OK S_OK S_OK []).

(** A running module whose path has no backslash, and one with no path. *)
Definition flat_path_world : World :=
  world_of (mk_install false true (Some "opengl32.dll") true S_OK
                       false false S_OK S_OK S_OK S_OK []).

Definition no_path_world : World :=
  world_of (mk_install false true None true S_OK
                       false false S_OK S_OK S_OK S_OK []).

(** No DXIL.dll anywhere; DXIL.dll without the factory symbol; a factory
    that cannot make the validator. *)
Definition no_dxil_world : World :=
  world_of (mk_install false false (Some "C:\mesa\opengl32.dll") true S_OK
                       true true S_OK S_OK S_OK S_OK []).

Definition no_factory_world : World :=
  world_of (mk_install true false (Some "C:\mesa\opengl32.dll") false S_OK
                       true true S_OK S_OK S_OK S_OK []).

Definition no_validator_world : World :=
  world_of (mk_install true false (Some "C:\mesa\opengl32.dll") true E_FAIL
                       true true S_OK S_OK S_OK S_OK []).

(** dxcompiler.dll present, but only the compiler can be made. *)
Definition compiler_only_world : World :=
  world_of (mk_install true false (Some "C:\mesa\opengl32.dll") true S_OK
                       true true E_FAIL S_OK S_OK S_OK []).

Definition compiler_only_context : dxil_validator :=
  mk_dxil_validator h_dxil h_dxcompiler o_validator NULL o_compiler.

(** Worlds that differ from [full_world] in the converted text only. *)
Definition text_world (bytes : list Byte.byte) : World :=
  world_of (mk_install true false (Some "C:\mesa\opengl32.dll") true S_OK
                       true true S_OK S_OK S_OK S_OK bytes).

(** Worlds in which a diagnostics step of validation fails. *)
Definition no_error_buffer_world : World :=
  world_of (mk_install true false (Some "C:\mesa\opengl32.dll") true S_OK
                       true true S_OK S_OK E_FAIL S_OK (text "unused")).


(** [w] with no memory for the context itself. *)
Definition out_of_contexts (w : World) : World :=
  {| LoadLibraryA := LoadLibraryA w;
     self_module_path := self_module_path w;
     GetProcAddress := GetProcAddress w;
     DxcCreateInstance := DxcCreateInstance w;
     rzalloc_succeeds := false;
     ralloc_strdup_succeeds := ralloc_strdup_succeeds w;
     Validate := Validate w;
     GetStatus := GetStatus w;
     GetErrorBuffer := GetErrorBuffer w;
     GetBlobAsUtf8 := GetBlobAsUtf8 w;
     Disassemble := Disassemble w |}.

(** [w] with factories that report success and store null. *)
Definition hollow_factories (w : World) : World :=
  {| LoadLibraryA := LoadLibraryA w;
     self_module_path := self_module_path w;
     GetProcAddress := GetProcAddress w;
     DxcCreateInstance := fun _ _ => (S_OK, NULL);
     rzalloc_succeeds := rzalloc_succeeds w;
     ralloc_strdup_succeeds := ralloc_strdup_succeeds w;
     Validate := Validate w;
     GetStatus := GetStatus w;
     GetErrorBuffer := GetErrorBuffer w;
     GetBlobAsUtf8 := GetBlobAsUtf8 w;
     Disassemble := Disassemble w |}.


(** dxcompiler.dll present without its factory symbol. *)
Definition no_compiler_factory_world : World :=
  world_of (mk_install true false (Some "C:\mesa\opengl32.dll") true S_OK
                       true false S_OK S_OK S_OK S_OK []).

Definition no_compiler_factory_context : dxil_validator :=
  mk_dxil_validator h_dxil h_dxcompiler o_validator NULL NULL.

End DxilExamples.

(** * Properties of the validator wrapper *)

Module DxilProps.

Import DxilValidator.
Local Open Scope dxil_scope.

(** ** The model at work *)

Example create_in_full_world :
  dxil_create_validator DxilExamples.full_world 7 =
    (Some DxilExamples.full_context,
     [EvRzalloc 7;
      EvLoadLibraryA "DXIL.dll";
      EvGetProcAddress DxilExamples.h_dxil "DxcCreateInstance";
      EvCreateInstance DxilExamples.f_dxil CLSID_DxcValidator;
      EvLoadLibraryA "dxcompiler.dll";
      EvGetProcAddress DxilExamples.h_dxcompiler "DxcCreateInstance";
      EvCreateInstance DxilExamples.f_dxcompiler CLSID_DxcLibrary;
      EvCreateInstance DxilExamples.f_dxcompiler CLSID_DxcCompiler]).
Proof. reflexivity. Qed.

Example validate_good_bytecode :
  fst (dxil_validate_module DxilExamples.full_world DxilExamples.full_context
         DxilExamples.good_bytecode 16 (Some CNull)) = (true, Some CNull).
Proof. reflexivity. Qed.

Example validate_bad_bytecode :
  fst (dxil_validate_module DxilExamples.full_world DxilExamples.full_context
         DxilExamples.bad_bytecode 16 (Some CNull)) =
    (false, Some (CStr (DxilExamples.text "error: bad" ++ [Byte.x00]))).
Proof. reflexivity. Qed.

Example disassemble_without_diagnostics :
  dxil_disasm_module DxilExamples.bare_world DxilExamples.bare_context
    DxilExamples.good_bytecode 16 =
    (CNull,
     [EvFprintfStderr ("DXIL: disassembly requires IDxcLibrary and "
                       ++ "IDxcCompiler from dxcompiler.dll" ++ nl)]).
Proof. reflexivity. Qed.

(** ** Strings *)

Lemma len_append (a b : string) : len (a ++ b) = len a + len b.
Proof.
  unfold len. induction a as [|c a IH]; cbn [append String.length].
  - reflexivity.
  - rewrite !Nat2Z.inj_succ. lia.
Qed.

(** [strrchr] splits the string at the last occurrence: what follows it has
    no further occurrence, and what precedes it, the occurrence included, is
    [cut_at]. *)
Lemma strrchr_split (c : ascii) (s : string) (i : nat) :
  strrchr s c = Some i ->
  exists rest,
    s = (cut_at s (S i) ++ rest)%string /\
    strrchr rest c = None /\
    String.get i s = Some c.
Proof.
  revert i. induction s as [|a s IH]; intros i H; cbn in H.
  - discriminate.
  - destruct (strrchr s c) as [j|] eqn:E.
    + injection H as <-.
      destruct (IH j eq_refl) as (rest & Hs & Hr & Hg).
      exists rest. split; [|split; [exact Hr | exact Hg]].
      unfold cut_at in *. cbn [substring append]. f_equal. exact Hs.
    + destruct (Ascii.eqb_spec a c) as [->|]; [|discriminate].
      injection H as <-.
      exists s. split; [|split; [exact E | reflexivity]].
      unfold cut_at. cbn [substring append]. destruct s; reflexivity.
Qed.

Lemma len_nonneg (s : string) : 0 <= len s.
Proof. unfold len. lia. Qed.

(** ** The loader *)

(** C7. [load_dxil_mod] tries the default search path first and, when that
    yields a module, does nothing else.  Only when it yields null does the
    loader ask for the path of the running module.  If that path cannot be
    had, is empty, or does not fit the buffer with its terminator (its
    length is [MAX_PATH] or more, so [GetModuleFileNameA] returns exactly the
    buffer size), if it has no backslash, or if the directory followed by
    the file name does not fit, the loader logs and returns null without a
    second load.  Otherwise the second and last load is of the file name
    appended to the untruncated directory of the running module, and its
    result, null included, is the loader's. *)
Theorem load_dxil_mod_search_order (w : World) :
  (nonnull (LoadLibraryA w "DXIL.dll") = true ->
   load_dxil_mod w = (LoadLibraryA w "DXIL.dll", [EvLoadLibraryA "DXIL.dll"]))
  /\
  (nonnull (LoadLibraryA w "DXIL.dll") = false ->
   (self_module_path w = None ->
    load_dxil_mod w =
      (NULL, fallback_prefix ++ [EvDebugPrintf "DXIL: Unable to get path to self"]))
   /\
   (forall p, self_module_path w = Some p ->
      (len p = 0 \/ MAX_PATH <= len p ->
       load_dxil_mod w =
         (NULL, fallback_prefix ++ [EvDebugPrintf "DXIL: Unable to get path to self"]))
      /\
      (0 < len p < MAX_PATH -> strrchr p "\"%char = None ->
       load_dxil_mod w =
         (NULL, fallback_prefix ++ [EvDebugPrintf "DXIL: Unable to get path to self"]))
      /\
      (forall i, 0 < len p < MAX_PATH -> strrchr p "\"%char = Some i ->
         let dir := cut_at p (S i) in
         (exists rest, p = (dir ++ rest)%string /\ strrchr rest "\"%char = None)
         /\
         (MAX_PATH <= len dir + len "DXIL.dll" ->
          load_dxil_mod w =
            (NULL, fallback_prefix ++
                   [EvDebugPrintf "DXIL: Unable to get path to DXIL.dll next to self"]))
         /\
         (len dir + len "DXIL.dll" < MAX_PATH ->
          load_dxil_mod w =
            (LoadLibraryA w (dir ++ "DXIL.dll"),
             fallback_prefix ++ [EvLoadLibraryA (dir ++ "DXIL.dll")]))))).
Proof.
  assert (Hrun : nonnull (LoadLibraryA w "DXIL.dll") = false ->
          forall p, self_module_path w = Some p -> 0 < len p < MAX_PATH ->
          load_dxil_mod w =
            (fst (match strrchr p "\"%char with
                  | None =>
                      debug_printf "DXIL: Unable to get path to self" ;;; ret NULL
                  | Some i =>
                      let r := strcat_s MAX_PATH (cut_at p (S i)) "DXIL.dll" in
                      if negb (fst r =? 0) then
                        debug_printf
                          "DXIL: Unable to get path to DXIL.dll next to self" ;;;
                        ret NULL
                      else call (EvLoadLibraryA (snd r)) (LoadLibraryA w (snd r))
                  end),
             fallback_prefix ++
             snd (match strrchr p "\"%char with
                  | None =>
                      debug_printf "DXIL: Unable to get path to self" ;;; ret NULL
                  | Some i =>
                      let r := strcat_s MAX_PATH (cut_at p (S i)) "DXIL.dll" in
                      if negb (fst r =? 0) then
                        debug_printf
                          "DXIL: Unable to get path to DXIL.dll next to self" ;;;
                        ret NULL
                      else call (EvLoadLibraryA (snd r)) (LoadLibraryA w (snd r))
                  end))).
  { intros H p Hp Hl. unfold load_dxil_mod, GetModuleFileNameA. run.
    rewrite H, Hp.
    destruct (Z.ltb_spec (len p) MAX_PATH) as [Hlt|Hge]; [|lia]. run.
    destruct (Z.eqb_spec (len p) 0); [lia|].
    destruct (Z.eqb_spec (len p) MAX_PATH); [lia|].
    reflexivity. }
  split.
  { intros H. unfold load_dxil_mod. run. rewrite H. reflexivity. }
  intros H. split.
  { intros Hp. unfold load_dxil_mod, GetModuleFileNameA. run.
    rewrite H, Hp. reflexivity. }
  intros p Hp. split; [|split].
  - intros Hl. unfold load_dxil_mod, GetModuleFileNameA. run. rewrite H, Hp.
    destruct (Z.ltb_spec (len p) MAX_PATH) as [Hlt|Hge].
    + destruct Hl as [Hl|Hl]; [|lia]. run. rewrite Hl. reflexivity.
    + run. rewrite Z.eqb_refl, orb_true_r. reflexivity.
  - intros Hl Hs. rewrite (Hrun H p Hp Hl), Hs. reflexivity.
  - intros i Hl Hs dir. split; [|split].
    + destruct (strrchr_split _ _ _ Hs) as (rest & Hsplit & Hr & _).
      exists rest. split; assumption.
    + intros Hfit. rewrite (Hrun H p Hp Hl), Hs. unfold strcat_s.
      fold dir.
      destruct (Z.ltb_spec (len dir + len "DXIL.dll") MAX_PATH); [lia|].
      reflexivity.
    + intros Hfit. rewrite (Hrun H p Hp Hl), Hs. unfold strcat_s.
      fold dir.
      destruct (Z.ltb_spec (len dir + len "DXIL.dll") MAX_PATH); [|lia].
      reflexivity.
Qed.

Lemma load_dxil_mod_search_order_witness :
  load_dxil_mod DxilExamples.full_world =
    (DxilExamples.h_dxil, [EvLoadLibraryA "DXIL.dll"])
  /\ load_dxil_mod DxilExamples.side_by_side_world =
       (DxilExamples.h_dxil,
        fallback_prefix ++ [EvLoadLibraryA "C:\mesa\DXIL.dll"])
  /\ load_dxil_mod DxilExamples.long_path_world =
       (NULL, fallback_prefix ++
              [EvDebugPrintf "DXIL: Unable to get path to self"])
  /\ load_dxil_mod DxilExamples.flat_path_world =
       (NULL, fallback_prefix ++
              [EvDebugPrintf "DXIL: Unable to get path to self"])
  /\ load_dxil_mod DxilExamples.no_path_world =
       (NULL, fallback_prefix ++
              [EvDebugPrintf "DXIL: Unable to get path to self"])
  /\ load_dxil_mod DxilExamples.deep_path_world =
       (NULL, fallback_prefix ++
              [EvDebugPrintf "DXIL: Unable to get path to DXIL.dll next to self"]).
Proof.
  split; [|split; [|split; [|split; [|split]]]].
  - exact (proj1 (load_dxil_mod_search_order DxilExamples.full_world) eq_refl).
  - destruct (load_dxil_mod_search_order DxilExamples.side_by_side_world) as [_ H].
    destruct (H eq_refl) as [_ H1].
    destruct (H1 _ eq_refl) as (_ & _ & H2).
    destruct (H2 7%nat (conj eq_refl eq_refl) eq_refl) as (_ & _ & H3).
    exact (H3 eq_refl).
  - destruct (load_dxil_mod_search_order DxilExamples.long_path_world) as [_ H].
    destruct (H eq_refl) as [_ H1].
    destruct (H1 _ eq_refl) as (H2 & _).
    apply H2. right. vm_compute. discriminate.
  - destruct (load_dxil_mod_search_order DxilExamples.flat_path_world) as [_ H].
    destruct (H eq_refl) as [_ H1].
    destruct (H1 _ eq_refl) as (_ & H2 & _).
    exact (H2 (conj eq_refl eq_refl) eq_refl).
  - destruct (load_dxil_mod_search_order DxilExamples.no_path_world) as [_ H].
    destruct (H eq_refl) as [H1 _].
    exact (H1 eq_refl).
  - destruct (load_dxil_mod_search_order DxilExamples.deep_path_world) as [_ H].
    destruct (H eq_refl) as [_ H1].
    destruct (H1 _ eq_refl) as (_ & _ & H2).
    destruct (H2 253%nat (conj eq_refl eq_refl) eq_refl) as (_ & H3 & _).
    apply H3. vm_compute. discriminate.
Defined.

(** A path whose characters and terminator fill the buffer exactly is not
    truncated, and the loader goes on with it. *)
Example load_dxil_mod_longest_path :
  len ("C:\" ++ DxilExamples.replicate 256 "a") = MAX_PATH - 1 /\
  load_dxil_mod
    (DxilExamples.world_of
       (DxilExamples.mk_install false false
          (Some ("C:\" ++ DxilExamples.replicate 256 "a")%string) true S_OK
          false false S_OK S_OK S_OK S_OK []))
  = (NULL, fallback_prefix ++ [EvLoadLibraryA "C:\DXIL.dll"]).
Proof. split; vm_compute; reflexivity. Qed.

(** ** Construction *)

Lemma nonnull_true (p : Z) : nonnull p = true <-> p <> NULL.
Proof.
  unfold nonnull. destruct (Z.eqb_spec p NULL); cbn; split; congruence.
Qed.

Lemma nonnull_false (p : Z) : nonnull p = false <-> p = NULL.
Proof.
  unfold nonnull. destruct (Z.eqb_spec p NULL); cbn; split; congruence.
Qed.

(** [create_dxc_validator] yields null when the symbol is missing or the
    factory fails, and otherwise what the factory stored. *)
Lemma create_dxc_validator_fails (w : World) (h : HMODULE) :
  GetProcAddress w h "DxcCreateInstance" = NULL \/
  FAILED (fst (DxcCreateInstance w (GetProcAddress w h "DxcCreateInstance")
                                 CLSID_DxcValidator)) = true \/
  snd (DxcCreateInstance w (GetProcAddress w h "DxcCreateInstance")
                         CLSID_DxcValidator) = NULL ->
  fst (create_dxc_validator w h) = NULL /\
  unloaded (snd (create_dxc_validator w h)) = [] /\
  released (snd (create_dxc_validator w h)) = [].
Proof.
  intros H. unfold create_dxc_validator. run.
  destruct (nonnull (GetProcAddress w h "DxcCreateInstance")) eqn:Hf; cbn.
  - destruct H as [H|[H|H]].
    + apply nonnull_true in Hf. contradiction.
    + rewrite H. cbn. auto.
    + destruct (FAILED _); cbn; auto.
  - auto.
Qed.

(** The steps taken before the validator is in hand neither unload nor
    release anything. *)
Lemma load_dxil_mod_frees_nothing (w : World) :
  unloaded (snd (load_dxil_mod w)) = [] /\ released (snd (load_dxil_mod w)) = [].
Proof.
  unfold load_dxil_mod, GetModuleFileNameA. run.
  destruct (nonnull (LoadLibraryA w "DXIL.dll")); cbn; [auto|].
  destruct (self_module_path w) as [p|]; cbn; [|auto].
  destruct (len p <? MAX_PATH); cbn [fst snd];
    (destruct (_ || _); cbn; [auto|]);
    (destruct (strrchr _ _); cbn; [|auto]);
    (destruct (negb _); cbn; auto).
Qed.

Lemma unloaded_app (t u : trace) : unloaded (t ++ u) = unloaded t ++ unloaded u.
Proof.
  induction t as [|e t IH]; cbn; [reflexivity|].
  destruct e; cbn; rewrite ?IH; reflexivity.
Qed.

Lemma released_app (t u : trace) : released (t ++ u) = released t ++ released u.
Proof.
  induction t as [|e t IH]; cbn; [reflexivity|].
  destruct e; cbn; rewrite ?IH; reflexivity.
Qed.

Lemma warnings_app (t u : trace) : warnings (t ++ u) = warnings t ++ warnings u.
Proof.
  induction t as [|e t IH]; cbn; [reflexivity|].
  destruct e; cbn; rewrite ?IH; reflexivity.
Qed.

(** [dxil_create_validator] laid out by outcome: the value returned and the
    trace, stage by stage. *)
Lemma dxil_create_validator_eq (w : World) (ctx : ptr) :
  dxil_create_validator w ctx =
    if negb (rzalloc_succeeds w) then (None, [EvRzalloc ctx])
    else
      let h := fst (load_dxil_mod w) in
      if negb (nonnull h) then
        (None, EvRzalloc ctx :: snd (load_dxil_mod w) ++
               [EvDebugPrintf ("DXIL: Failed to load DXIL.dll" ++ nl);
                EvRallocFree])
      else
        let v := fst (create_dxc_validator w h) in
        if negb (nonnull v) then
          (None, EvRzalloc ctx :: snd (load_dxil_mod w) ++
                 snd (create_dxc_validator w h) ++
                 [EvFreeLibrary h; EvRallocFree])
        else
          let m := LoadLibraryA w "dxcompiler.dll" in
          let val := mk_dxil_validator h m v NULL NULL in
          let before :=
            EvRzalloc ctx :: snd (load_dxil_mod w) ++
            snd (create_dxc_validator w h) ++
            [EvLoadLibraryA "dxcompiler.dll"] in
          if nonnull m then
            (Some (fst (create_diagnostics w val)),
             before ++ snd (create_diagnostics w val))
          else (Some val, before).
Proof.
  unfold dxil_create_validator, create_fail. run.
  case (rzalloc_succeeds w); cbn [negb]; [|reflexivity].
  cbn [set_dxil_mod set_dxc_validator set_dxcompiler_mod dxil_mod
       dxc_validator dxcompiler_mod dxc_library dxc_compiler zeroed].
  case (nonnull (fst (load_dxil_mod w))); cbn [negb fst snd app].
  - case (nonnull (fst (create_dxc_validator w (fst (load_dxil_mod w)))));
      cbn [negb fst snd app].
    + case (nonnull (LoadLibraryA w "dxcompiler.dll")); cbn [fst snd app];
        rewrite <- ?app_assoc, ?app_nil_r; reflexivity.
    + reflexivity.
  - reflexivity.
Qed.

(** [create_diagnostics] laid out in the same way. *)
Lemma create_diagnostics_eq (w : World) (val : dxil_validator) :
  create_diagnostics w val =
    let m := dxcompiler_mod val in
    let f := GetProcAddress w m "DxcCreateInstance" in
    let rl := DxcCreateInstance w f CLSID_DxcLibrary in
    let rc := DxcCreateInstance w f CLSID_DxcCompiler in
    if nonnull f then
      (set_dxc_compiler (set_dxc_library val (snd rl)) (snd rc),
       [EvGetProcAddress m "DxcCreateInstance";
        EvCreateInstance f CLSID_DxcLibrary] ++
       (if FAILED (fst rl) then
          [EvDebugPrintf ("DXIL: Unable to create IDxcLibrary instance" ++ nl)]
        else []) ++
       [EvCreateInstance f CLSID_DxcCompiler] ++
       (if FAILED (fst rc) then
          [EvDebugPrintf ("DXIL: Unable to create IDxcCompiler instance" ++ nl)]
        else []))
    else
      (val,
       [EvGetProcAddress m "DxcCreateInstance";
        EvDebugPrintf
          ("DXIL: Failed to load DxcCreateInstance from dxcompiler.dll" ++ nl)]).
Proof.
  unfold create_diagnostics. run.
  case (nonnull (GetProcAddress w (dxcompiler_mod val) "DxcCreateInstance"));
    cbn [negb fst snd app]; [|reflexivity].
  case (FAILED (fst (DxcCreateInstance w _ CLSID_DxcLibrary)));
    case (FAILED (fst (DxcCreateInstance w _ CLSID_DxcCompiler)));
    reflexivity.
Qed.

Lemma create_dxc_validator_frees_nothing (w : World) (h : HMODULE) :
  unloaded (snd (create_dxc_validator w h)) = [] /\
  released (snd (create_dxc_validator w h)) = [] /\
  ~ In EvRallocFree (snd (create_dxc_validator w h)).
Proof.
  unfold create_dxc_validator. run.
  case (nonnull (GetProcAddress w h "DxcCreateInstance")); cbn [negb fst snd].
  - case (FAILED _); cbn; intuition discriminate.
  - cbn; intuition discriminate.
Qed.

(** C3. With [h] the module [load_dxil_mod] yields, [f] the factory symbol
    resolved from it and [r] what that factory answers for the validator
    class: if [h] is null, or [f] is null, or [r] is a failure or stores a
    null validator, then [dxil_create_validator] returns null.  When the context itself could be
    allocated, the run then ends by freeing it, after unloading [h] when
    [h] had been loaded, and that is the only module unloaded.  Hence every
    context returned has a non-null [dxil_mod] and a non-null
    [dxc_validator]. *)
Theorem dxil_create_validator_hard_failures (w : World) (ctx : ptr) :
  let h := fst (load_dxil_mod w) in
  let f := GetProcAddress w h "DxcCreateInstance" in
  let r := DxcCreateInstance w f CLSID_DxcValidator in
  (h = NULL \/ f = NULL \/ FAILED (fst r) = true \/ snd r = NULL ->
   fst (dxil_create_validator w ctx) = None)
  /\
  (rzalloc_succeeds w = true -> h = NULL ->
   snd (dxil_create_validator w ctx) =
     EvRzalloc ctx :: snd (load_dxil_mod w) ++
     [EvDebugPrintf ("DXIL: Failed to load DXIL.dll" ++ nl); EvRallocFree]
   /\ unloaded (snd (dxil_create_validator w ctx)) = [])
  /\
  (rzalloc_succeeds w = true -> h <> NULL ->
   f = NULL \/ FAILED (fst r) = true \/ snd r = NULL ->
   snd (dxil_create_validator w ctx) =
     EvRzalloc ctx :: snd (load_dxil_mod w) ++ snd (create_dxc_validator w h) ++
     [EvFreeLibrary h; EvRallocFree]
   /\ unloaded (snd (dxil_create_validator w ctx)) = [h])
  /\
  (forall val, fst (dxil_create_validator w ctx) = Some val ->
   dxil_mod val <> NULL /\ dxc_validator val <> NULL).
Proof.
  intros h f r.
  assert (Hload : h = NULL ->
          dxil_create_validator w ctx =
            if rzalloc_succeeds w then
              (None, EvRzalloc ctx :: snd (load_dxil_mod w) ++
                     [EvDebugPrintf ("DXIL: Failed to load DXIL.dll" ++ nl);
                      EvRallocFree])
            else (None, [EvRzalloc ctx])).
  { intros Hh. unfold dxil_create_validator, create_fail. run.
    case (rzalloc_succeeds w); cbn [negb]; [|reflexivity].
    cbn [set_dxil_mod dxil_mod]. fold h. rewrite Hh. reflexivity. }
  assert (Hval : h <> NULL -> fst (create_dxc_validator w h) = NULL ->
          dxil_create_validator w ctx =
            if rzalloc_succeeds w then
              (None, EvRzalloc ctx :: snd (load_dxil_mod w) ++
                     snd (create_dxc_validator w h) ++
                     [EvFreeLibrary h; EvRallocFree])
            else (None, [EvRzalloc ctx])).
  { intros Hh Hv. apply nonnull_true in Hh.
    unfold dxil_create_validator, create_fail. run.
    case (rzalloc_succeeds w); cbn [negb]; [|reflexivity].
    cbn [set_dxil_mod set_dxc_validator dxil_mod dxc_validator]. fold h.
    rewrite Hh. cbn [negb]. rewrite Hv. reflexivity. }
  split; [|split; [|split]].
  - intros H. destruct (Z.eq_dec h NULL) as [Hh|Hh].
    + rewrite (Hload Hh). destruct (rzalloc_succeeds w); reflexivity.
    + destruct H as [H|H]; [contradiction|].
      rewrite (Hval Hh (proj1 (create_dxc_validator_fails w h H))).
      destruct (rzalloc_succeeds w); reflexivity.
  - intros Hz Hh. rewrite (Hload Hh), Hz. split; [reflexivity|].
    cbn [snd unloaded].
    rewrite unloaded_app, (proj1 (load_dxil_mod_frees_nothing w)).
    reflexivity.
  - intros Hz Hh H.
    destruct (create_dxc_validator_fails w h H) as (Hv & Hu & _).
    rewrite (Hval Hh Hv), Hz. split; [reflexivity|].
    cbn [snd unloaded].
    rewrite !unloaded_app, (proj1 (load_dxil_mod_frees_nothing w)), Hu.
    reflexivity.
  - intros val Hsome.
    destruct (Z.eq_dec h NULL) as [Hh|Hh].
    { rewrite (Hload Hh) in Hsome.
      destruct (rzalloc_succeeds w); discriminate. }
    destruct (Z.eq_dec (fst (create_dxc_validator w h)) NULL) as [Hv|Hv].
    { rewrite (Hval Hh Hv) in Hsome.
      destruct (rzalloc_succeeds w); discriminate. }
    revert Hsome. unfold dxil_create_validator, create_diagnostics. run.
    destruct (rzalloc_succeeds w); cbn [negb]; [|discriminate].
    cbn [set_dxil_mod set_dxc_validator set_dxcompiler_mod dxil_mod
         dxc_validator dxcompiler_mod]. fold h.
    rewrite (proj2 (nonnull_true h) Hh). cbn [negb].
    rewrite (proj2 (nonnull_true _) Hv). cbn [negb].
    destruct (nonnull (LoadLibraryA w "dxcompiler.dll")); cbn [fst].
    + destruct (negb (nonnull _)); cbn [fst]; intros [= <-]; cbn; auto.
    + intros [= <-]; cbn; auto.
Qed.

Lemma dxil_create_validator_hard_failures_witness :
  (fst (dxil_create_validator DxilExamples.no_dxil_world 7) = None /\
   unloaded (snd (dxil_create_validator DxilExamples.no_dxil_world 7)) = [])
  /\
  (fst (dxil_create_validator DxilExamples.no_factory_world 7) = None /\
   unloaded (snd (dxil_create_validator DxilExamples.no_factory_world 7)) =
     [DxilExamples.h_dxil])
  /\
  (fst (dxil_create_validator DxilExamples.no_validator_world 7) = None /\
   unloaded (snd (dxil_create_validator DxilExamples.no_validator_world 7)) =
     [DxilExamples.h_dxil])
  /\
  (dxil_mod DxilExamples.full_context <> NULL /\
   dxc_validator DxilExamples.full_context <> NULL).
Proof.
  split; [|split; [|split]].
  - destruct (dxil_create_validator_hard_failures DxilExamples.no_dxil_world 7)
      as (H1 & H2 & _).
    split; [apply H1; left; reflexivity | apply H2; reflexivity].
  - destruct (dxil_create_validator_hard_failures DxilExamples.no_factory_world 7)
      as (H1 & _ & H3 & _).
    split; [apply H1; right; left; reflexivity|].
    apply H3; [reflexivity | discriminate | left; reflexivity].
  - destruct (dxil_create_validator_hard_failures DxilExamples.no_validator_world 7)
      as (H1 & _ & H3 & _).
    split; [apply H1; right; right; left; reflexivity|].
    apply H3; [reflexivity | discriminate | right; left; reflexivity].
  - destruct (dxil_create_validator_hard_failures DxilExamples.full_world 7)
      as (_ & _ & _ & H4).
    apply H4. reflexivity.
Defined.

(** C5, as the code has it.  Once the validator is in hand, construction
    returns a context whatever the diagnostics steps do, and unloads,
    releases and frees nothing.  A failed load of dxcompiler.dll is silent:
    nothing is logged, no further step is attempted and the three
    diagnostics fields are null.  A missing factory symbol logs one warning
    and leaves both service fields null.  With the factory resolved, both
    services are asked for, in turn and whatever the first answer was; each
    failure logs its own warning, and each field holds what the factory
    stored for it, which is null on failure for a factory that stores null
    on failure. *)
Theorem dxil_create_validator_soft_diagnostics (w : World) (ctx : ptr) :
  rzalloc_succeeds w = true ->
  let h := fst (load_dxil_mod w) in
  let v := fst (create_dxc_validator w h) in
  h <> NULL -> v <> NULL ->
  let m := LoadLibraryA w "dxcompiler.dll" in
  let f := GetProcAddress w m "DxcCreateInstance" in
  let rl := DxcCreateInstance w f CLSID_DxcLibrary in
  let rc := DxcCreateInstance w f CLSID_DxcCompiler in
  let before :=
    EvRzalloc ctx :: snd (load_dxil_mod w) ++ snd (create_dxc_validator w h) ++
    [EvLoadLibraryA "dxcompiler.dll"] in
  exists val t,
    dxil_create_validator w ctx = (Some val, before ++ t) /\
    dxil_mod val = h /\ dxc_validator val = v /\ dxcompiler_mod val = m /\
    unloaded (before ++ t) = [] /\
    released (before ++ t) = [] /\
    ~ In EvRallocFree (before ++ t) /\
    (m = NULL ->
     t = [] /\ dxc_library val = NULL /\ dxc_compiler val = NULL) /\
    (m <> NULL -> f = NULL ->
     t = [EvGetProcAddress m "DxcCreateInstance";
          EvDebugPrintf
            ("DXIL: Failed to load DxcCreateInstance from dxcompiler.dll" ++ nl)]
     /\ dxc_library val = NULL /\ dxc_compiler val = NULL) /\
    (m <> NULL -> f <> NULL ->
     t = [EvGetProcAddress m "DxcCreateInstance";
          EvCreateInstance f CLSID_DxcLibrary] ++
         (if FAILED (fst rl) then
            [EvDebugPrintf ("DXIL: Unable to create IDxcLibrary instance" ++ nl)]
          else []) ++
         [EvCreateInstance f CLSID_DxcCompiler] ++
         (if FAILED (fst rc) then
            [EvDebugPrintf ("DXIL: Unable to create IDxcCompiler instance" ++ nl)]
          else [])
     /\ dxc_library val = snd rl /\ dxc_compiler val = snd rc
     /\ (stores_null_on_failure w ->
         (FAILED (fst rl) = true -> dxc_library val = NULL) /\
         (FAILED (fst rc) = true -> dxc_compiler val = NULL))).
Proof.
  intros Hz h v Hh Hv m f rl rc before.
  assert (Hbefore : unloaded before = [] /\ released before = [] /\
                    ~ In EvRallocFree before).
  { unfold before.
    destruct (load_dxil_mod_frees_nothing w) as [Hu Hr].
    destruct (create_dxc_validator_frees_nothing w h) as (Hu' & Hr' & Hf').
    cbn [unloaded released]. rewrite !unloaded_app, !released_app, Hu, Hr, Hu', Hr'.
    split; [reflexivity | split; [reflexivity|]].
    intros [H|H]; [discriminate|].
    apply in_app_or in H. destruct H as [H|H].
    - revert H. unfold load_dxil_mod, GetModuleFileNameA. run.
      case (nonnull (LoadLibraryA w "DXIL.dll")); cbn [fst snd].
      + cbn. intuition discriminate.
      + case (_ || _); cbn [fst snd app].
        * cbn. intuition discriminate.
        * case (strrchr _ _); [intros n|]; cbn [fst snd app].
          -- case (negb _); cbn; intuition discriminate.
          -- cbn. intuition discriminate.
    - apply in_app_or in H. destruct H as [H|H]; [exact (Hf' H)|].
      cbn in H. intuition discriminate. }
  destruct Hbefore as (Hu & Hr & Hf).
  pose proof (dxil_create_validator_eq w ctx) as E.
  rewrite Hz in E. cbn [negb] in E. cbv zeta in E. fold h in E.
  rewrite (proj2 (nonnull_true h) Hh) in E. cbn [negb] in E. fold v in E.
  rewrite (proj2 (nonnull_true v) Hv) in E. cbn [negb] in E.
  fold m in E. fold before in E.
  destruct (nonnull m) eqn:Hm.
  - apply nonnull_true in Hm.
    rewrite create_diagnostics_eq in E. cbv zeta in E.
    cbn [dxcompiler_mod] in E. fold f in E. fold rl in E. fold rc in E.
    destruct (nonnull f) eqn:Hf0; cbn [fst snd] in E.
    + apply nonnull_true in Hf0.
      eexists _, _. split; [exact E|].
      cbn [set_dxc_compiler set_dxc_library dxil_mod dxc_validator
           dxcompiler_mod dxc_library dxc_compiler].
      rewrite unloaded_app, released_app, Hu, Hr.
      repeat (split; [reflexivity|]).
      split; [destruct (FAILED (fst rl)), (FAILED (fst rc)); reflexivity|].
      split; [destruct (FAILED (fst rl)), (FAILED (fst rc)); reflexivity|].
      split.
      { intros H. apply in_app_or in H. destruct H as [H|H]; [exact (Hf H)|].
        destruct (FAILED (fst rl)), (FAILED (fst rc)); cbn in H;
          intuition discriminate. }
      split; [intros; contradiction|].
      split; [intros; contradiction|].
      intros _ _. repeat (split; [reflexivity|]).
      intros Hc. split; intros Hfail; apply Hc; exact Hfail.
    + apply nonnull_false in Hf0.
      eexists _, _. split; [exact E|].
      cbn [dxil_mod dxc_validator dxcompiler_mod dxc_library dxc_compiler].
      rewrite unloaded_app, released_app, Hu, Hr.
      repeat (split; [reflexivity|]).
      split.
      { intros H. apply in_app_or in H. destruct H as [H|H]; [exact (Hf H)|].
        cbn in H. intuition discriminate. }
      split; [intros; contradiction|].
      split; [intros; repeat split; reflexivity|].
      intros; contradiction.
  - apply nonnull_false in Hm.
    exists (mk_dxil_validator h m v NULL NULL), [].
    rewrite app_nil_r. split; [exact E|].
    cbn [dxil_mod dxc_validator dxcompiler_mod dxc_library dxc_compiler].
    repeat (split; [first [reflexivity | assumption]|]).
    split; [intros; repeat split; reflexivity|].
    split; intros; contradiction.
Qed.

Lemma dxil_create_validator_soft_diagnostics_witness :
  exists val t,
    dxil_create_validator DxilExamples.compiler_only_world 7 =
      (Some val,
       (EvRzalloc 7 :: snd (load_dxil_mod DxilExamples.compiler_only_world) ++
        snd (create_dxc_validator DxilExamples.compiler_only_world
               DxilExamples.h_dxil) ++
        [EvLoadLibraryA "dxcompiler.dll"]) ++ t) /\
    dxc_library val = NULL /\
    dxc_compiler val = DxilExamples.o_compiler /\
    instantiated t = [CLSID_DxcLibrary; CLSID_DxcCompiler] /\
    warnings t = ["DXIL: Unable to create IDxcLibrary instance" ++ nl]%string.
Proof.
  destruct (dxil_create_validator_soft_diagnostics
              DxilExamples.compiler_only_world 7 eq_refl)
    as (val & t & E & _ & _ & _ & _ & _ & _ & _ & _ & H);
    [discriminate | discriminate |].
  destruct H as (Ht & Hl & Hc & _); [discriminate | discriminate |].
  exists val, t. split; [exact E|].
  rewrite Ht, Hl, Hc. repeat split; reflexivity.
Defined.

(** C5 as stated fails at the first step it lists: on a machine without
    dxcompiler.dll the load fails, construction succeeds, and nothing at all
    is logged. *)
Lemma dxil_create_validator_silent_load_failure :
  LoadLibraryA DxilExamples.bare_world "dxcompiler.dll" = NULL /\
  fst (dxil_create_validator DxilExamples.bare_world 7) =
    Some DxilExamples.bare_context /\
  warnings (snd (dxil_create_validator DxilExamples.bare_world 7)) = [].
Proof. repeat split; vm_compute; reflexivity. Qed.

(** ** Destruction *)

(** What a constructed context satisfies: the two mandatory fields are
    non-null, and the diagnostics services are null unless dxcompiler.dll
    was loaded. *)
Lemma dxil_create_validator_invariant (w : World) (ctx : ptr)
    (val : dxil_validator) :
  fst (dxil_create_validator w ctx) = Some val ->
  dxil_mod val <> NULL /\ dxc_validator val <> NULL /\
  (dxcompiler_mod val = NULL ->
   dxc_library val = NULL /\ dxc_compiler val = NULL).
Proof.
  rewrite dxil_create_validator_eq. cbv zeta.
  case (rzalloc_succeeds w); cbn [negb fst]; [|discriminate].
  destruct (nonnull (fst (load_dxil_mod w))) eqn:Hh; cbn [negb fst];
    [|discriminate].
  destruct (nonnull (fst (create_dxc_validator w _))) eqn:Hv; cbn [negb fst];
    [|discriminate].
  apply nonnull_true in Hh, Hv.
  destruct (nonnull (LoadLibraryA w "dxcompiler.dll")) eqn:Hm; cbn [fst].
  - apply nonnull_true in Hm.
    rewrite create_diagnostics_eq. cbv zeta. cbn [dxcompiler_mod].
    case (nonnull (GetProcAddress w _ _)); cbn [fst]; intros [= <-]; cbn;
      repeat split; try assumption; intros; contradiction.
  - intros [= <-]; cbn. repeat split; assumption.
Qed.

(** C6, as the code has it.  On a constructed context,
    [dxil_destroy_validator] releases the validator and unloads DXIL.dll
    first; then, when dxcompiler.dll was loaded, it releases the library and
    the compiler services, each if non-null, and unloads dxcompiler.dll;
    last it frees the context.  Every non-null service reference held is
    released exactly once, in the order of acquisition, and each before the
    module it came from is unloaded. *)
Theorem dxil_destroy_validator_teardown (w : World) (ctx : ptr)
    (val : dxil_validator) :
  fst (dxil_create_validator w ctx) = Some val ->
  let t := snd (dxil_destroy_validator val) in
  t = [EvRelease (dxc_validator val); EvFreeLibrary (dxil_mod val)] ++
      (if nonnull (dxcompiler_mod val) then
         map EvRelease (filter nonnull [dxc_library val; dxc_compiler val]) ++
         [EvFreeLibrary (dxcompiler_mod val)]
       else []) ++
      [EvRallocFree]
  /\ released t = held_services val
  /\ unloaded t = filter nonnull [dxil_mod val; dxcompiler_mod val].
Proof.
  intros Hc t.
  destruct (dxil_create_validator_invariant w ctx val Hc) as (Hh & Hv & Hd).
  apply nonnull_true in Hh, Hv.
  unfold t, dxil_destroy_validator, held_services. run.
  cbn [filter]. rewrite Hh, Hv.
  destruct (nonnull (dxcompiler_mod val)) eqn:Hm.
  - destruct (nonnull (dxc_library val)), (nonnull (dxc_compiler val));
      repeat split; reflexivity.
  - apply nonnull_false in Hm. destruct (Hd Hm) as [-> ->].
    repeat split; reflexivity.
Qed.

Lemma dxil_destroy_validator_teardown_witness :
  released (snd (dxil_destroy_validator DxilExamples.compiler_only_context)) =
    [DxilExamples.o_validator; DxilExamples.o_compiler] /\
  unloaded (snd (dxil_destroy_validator DxilExamples.compiler_only_context)) =
    [DxilExamples.h_dxil; DxilExamples.h_dxcompiler].
Proof.
  destruct (dxil_destroy_validator_teardown DxilExamples.compiler_only_world 7
              DxilExamples.compiler_only_context eq_refl) as (_ & Hr & Hu).
  split; [exact Hr | exact Hu].
Defined.

(** C6 as stated fails on a fully populated context: DXIL.dll is unloaded
    before the two diagnostics services are released, and the services are
    released in the order they were acquired, not the reverse. *)
Lemma dxil_destroy_validator_order_counterexample :
  fst (dxil_create_validator DxilExamples.full_world 7) =
    Some DxilExamples.full_context /\
  snd (dxil_destroy_validator DxilExamples.full_context) =
    [EvRelease DxilExamples.o_validator; EvFreeLibrary DxilExamples.h_dxil;
     EvRelease DxilExamples.o_library; EvRelease DxilExamples.o_compiler;
     EvFreeLibrary DxilExamples.h_dxcompiler; EvRallocFree] /\
  releases_precede_unloads
    (snd (dxil_destroy_validator DxilExamples.full_context)) = false /\
  released (snd (dxil_destroy_validator DxilExamples.full_context)) <>
    rev (held_services DxilExamples.full_context).
Proof.
  split; [|split; [|split]]; try (vm_compute; reflexivity).
  vm_compute. discriminate.
Qed.

(** ** Validation *)

(** [dxil_validate_module] laid out by outcome. *)
Lemma dxil_validate_module_eq (w : World) (val : dxil_validator)
    (data : ptr) (size : Z) (error : option cstr) :
  let source := mk_ShaderBlob data size in
  let result := Validate w (dxc_validator val) source in
  let hr := GetStatus w result in
  let start := [EvValidate (dxc_validator val) source; EvGetStatus result] in
  dxil_validate_module w val data size error =
    if FAILED hr && requested error then
      if negb (nonnull (dxc_library val)) then
        ((false, Some CNull),
         start ++
         [EvStoreError CNull;
          EvDebugPrintf ("DXIL: validation failed, but lacking IDxcLibrary"
                         ++ "from dxcompiler.dll for proper diagnostics." ++ nl)])
      else
        let r := GetErrorBuffer w result in
        if FAILED (fst r) then
          ((SUCCEEDED hr, Some CNull),
           start ++
           [EvStoreError CNull; EvGetErrorBuffer result;
            EvFprintfStderr
              ("DXIL: IDxcOperationResult::GetErrorBuffer() failed" ++ nl)])
        else
          let r' := GetBlobAsUtf8 w (dxc_library val) (snd r) in
          if FAILED (fst r') then
            ((SUCCEEDED hr, Some CNull),
             start ++
             [EvStoreError CNull; EvGetErrorBuffer result;
              EvGetBlobAsUtf8 (dxc_library val) (snd r);
              EvFprintfStderr ("DXIL: IDxcLibrary::GetBlobAsUtf8() failed" ++ nl)])
          else
            let s := terminate_and_strdup w val (snd r') in
            ((SUCCEEDED hr, Some (fst s)),
             start ++
             [EvStoreError CNull; EvGetErrorBuffer result;
              EvGetBlobAsUtf8 (dxc_library val) (snd r)] ++
             snd s ++ [EvStoreError (fst s)])
    else ((SUCCEEDED hr, error), start).
Proof.
  cbv zeta. unfold dxil_validate_module. run.
  case (FAILED _ && requested error); cbn [fst snd app]; [|reflexivity].
  case (negb (nonnull (dxc_library val))); cbn [fst snd app]; [reflexivity|].
  case (FAILED (fst (GetErrorBuffer w _))); cbn [fst snd app]; [reflexivity|].
  case (FAILED (fst (GetBlobAsUtf8 w _ _))); cbn [fst snd app]; reflexivity.
Qed.

Lemma FAILED_SUCCEEDED (hr : HRESULT) : SUCCEEDED hr = negb (FAILED hr).
Proof.
  unfold SUCCEEDED, FAILED.
  destruct (Z.leb_spec 0 hr), (Z.ltb_spec hr 0); cbn; lia || reflexivity.
Qed.

(** C1. Whatever the world, the context, the buffer and the [error]
    argument, the [bool] that [dxil_validate_module] returns is
    [SUCCEEDED] of the status the validator's result reports, and so the
    negation of [FAILED] of it: true for a buffer the validator accepts,
    false for one it rejects.  It is the same in any other world and
    context that have the same validator giving the same answers, whatever
    their diagnostics fields, diagnostics answers and [error] argument. *)
Theorem dxil_validate_module_passed (w : World) (val : dxil_validator)
    (data : ptr) (size : Z) (error : option cstr) :
  let hr :=
    GetStatus w (Validate w (dxc_validator val) (mk_ShaderBlob data size)) in
  fst (fst (dxil_validate_module w val data size error)) = SUCCEEDED hr /\
  fst (fst (dxil_validate_module w val data size error)) = negb (FAILED hr) /\
  (forall w' val' error',
     dxc_validator val' = dxc_validator val ->
     (forall v b, Validate w' v b = Validate w v b) ->
     (forall r, GetStatus w' r = GetStatus w r) ->
     fst (fst (dxil_validate_module w' val' data size error')) =
     fst (fst (dxil_validate_module w val data size error))).
Proof.
  assert (H : forall w val error,
            fst (fst (dxil_validate_module w val data size error)) =
            SUCCEEDED (GetStatus w (Validate w (dxc_validator val)
                                             (mk_ShaderBlob data size)))).
  { clear. intros w val error.
    rewrite dxil_validate_module_eq. cbv zeta.
    rewrite (FAILED_SUCCEEDED (GetStatus w _)).
    destruct (FAILED (GetStatus w _)); cbn [andb negb]; [|reflexivity].
    destruct (requested error); [|reflexivity].
    destruct (negb (nonnull (dxc_library val))); [reflexivity|].
    destruct (FAILED (fst (GetErrorBuffer w _))); [reflexivity|].
    destruct (FAILED (fst (GetBlobAsUtf8 w _ _))); reflexivity. }
  intros hr. split; [apply H | split].
  - rewrite <- FAILED_SUCCEEDED. apply H.
  - intros w' val' error' Hv HV HS.
    rewrite !H, Hv, HV, HS. reflexivity.
Qed.

Lemma dxil_validate_module_passed_witness :
  fst (fst (dxil_validate_module DxilExamples.bare_world
              DxilExamples.bare_context DxilExamples.bad_bytecode 16 None)) =
  fst (fst (dxil_validate_module DxilExamples.no_error_buffer_world
              DxilExamples.full_context DxilExamples.bad_bytecode 16
              (Some CNull))).
Proof.
  destruct (dxil_validate_module_passed DxilExamples.no_error_buffer_world
              DxilExamples.full_context DxilExamples.bad_bytecode 16
              (Some CNull)) as (_ & _ & H).
  apply H; reflexivity.
Defined.

Lemma stores_app (t u : trace) : stores (t ++ u) = stores t ++ stores u.
Proof.
  induction t as [|e t IH]; cbn; [reflexivity|].
  destruct e; cbn; rewrite ?IH; reflexivity.
Qed.

(** C9. Let [error] point to a [char *] holding [e0].  When validation
    fails, the first thing stored through [error] is null; a second store
    follows exactly when every diagnostics step succeeds, and it stores the
    copied string; what the [char *] holds on return is the last value
    stored, whatever [e0] was.  When validation succeeds nothing is stored
    and the [char *] still holds [e0]. *)
Theorem dxil_validate_module_error_slot (w : World) (val : dxil_validator)
    (data : ptr) (size : Z) (e0 : cstr) :
  let result := Validate w (dxc_validator val) (mk_ShaderBlob data size) in
  let hr := GetStatus w result in
  let run := dxil_validate_module w val data size (Some e0) in
  (FAILED hr = true ->
   (diagnostics_succeed w val result = false ->
    stores (snd run) = [CNull] /\ snd (fst run) = Some CNull)
   /\
   (diagnostics_succeed w val result = true ->
    let s :=
      fst (terminate_and_strdup w val
             (snd (GetBlobAsUtf8 w (dxc_library val)
                                 (snd (GetErrorBuffer w result))))) in
    stores (snd run) = [CNull; s] /\ snd (fst run) = Some s))
  /\
  (FAILED hr = false ->
   stores (snd run) = [] /\ snd (fst run) = Some e0).
Proof.
  intros result hr run. unfold run.
  rewrite dxil_validate_module_eq. cbv zeta. fold result. fold hr.
  unfold diagnostics_succeed.
  assert (Hts : forall b, stores (snd (terminate_and_strdup w val b)) = []).
  { intros b. unfold terminate_and_strdup, ralloc_strdup, call.
    destruct (store_byte _ _ _); reflexivity. }
  split.
  - intros Hhr. rewrite Hhr. cbn [andb requested].
    destruct (nonnull (dxc_library val)); cbn [negb andb].
    + destruct (FAILED (fst (GetErrorBuffer w result))); cbn [negb andb].
      * split; [intros _; split; reflexivity | discriminate].
      * destruct (FAILED (fst (GetBlobAsUtf8 w _ _))); cbn [negb].
        -- split; [intros _; split; reflexivity | discriminate].
        -- split; [discriminate | intros _].
           split; [|reflexivity].
           cbn [snd app stores]. f_equal.
           rewrite stores_app, Hts. reflexivity.
    + split; [intros _; split; reflexivity | discriminate].
  - intros Hhr. rewrite Hhr. split; reflexivity.
Qed.

Lemma dxil_validate_module_error_slot_witness :
  (stores (snd (dxil_validate_module DxilExamples.full_world
                  DxilExamples.full_context DxilExamples.bad_bytecode 16
                  (Some CIndeterminate))) =
     [CNull; CStr (DxilExamples.text "error: bad" ++ [Byte.x00])] /\
   snd (fst (dxil_validate_module DxilExamples.full_world
               DxilExamples.full_context DxilExamples.bad_bytecode 16
               (Some CIndeterminate))) =
     Some (CStr (DxilExamples.text "error: bad" ++ [Byte.x00])))
  /\
  (stores (snd (dxil_validate_module DxilExamples.no_error_buffer_world
                  DxilExamples.full_context DxilExamples.bad_bytecode 16
                  (Some CIndeterminate))) = [CNull] /\
   snd (fst (dxil_validate_module DxilExamples.no_error_buffer_world
               DxilExamples.full_context DxilExamples.bad_bytecode 16
               (Some CIndeterminate))) = Some CNull)
  /\
  (stores (snd (dxil_validate_module DxilExamples.full_world
                  DxilExamples.full_context DxilExamples.good_bytecode 16
                  (Some CIndeterminate))) = [] /\
   snd (fst (dxil_validate_module DxilExamples.full_world
               DxilExamples.full_context DxilExamples.good_bytecode 16
               (Some CIndeterminate))) = Some CIndeterminate).
Proof.
  split; [|split].
  - destruct (dxil_validate_module_error_slot DxilExamples.full_world
                DxilExamples.full_context DxilExamples.bad_bytecode 16
                CIndeterminate) as [H _].
    destruct (H eq_refl) as [_ H']. exact (H' eq_refl).
  - destruct (dxil_validate_module_error_slot DxilExamples.no_error_buffer_world
                DxilExamples.full_context DxilExamples.bad_bytecode 16
                CIndeterminate) as [H _].
    destruct (H eq_refl) as [H' _]. exact (H' eq_refl).
  - destruct (dxil_validate_module_error_slot DxilExamples.full_world
                DxilExamples.full_context DxilExamples.good_bytecode 16
                CIndeterminate) as [_ H].
    exact (H eq_refl).
Defined.

(** ** Missing diagnostics *)

(** C4. When either diagnostics service is null, and so when both are,
    [dxil_disasm_module] logs one warning, calls nothing and returns null,
    whatever the buffer.  When the library service is null and the
    validator rejects the buffer, [dxil_validate_module] with an [error]
    pointer stores null through it, logs one warning and returns false. *)
Theorem diagnostics_absent (w : World) (val : dxil_validator)
    (data : ptr) (size : Z) (e0 : cstr) :
  (dxc_compiler val = NULL \/ dxc_library val = NULL ->
   dxil_disasm_module w val data size =
     (CNull,
      [EvFprintfStderr ("DXIL: disassembly requires IDxcLibrary and "
                        ++ "IDxcCompiler from dxcompiler.dll" ++ nl)]))
  /\
  (dxc_library val = NULL ->
   FAILED (GetStatus w (Validate w (dxc_validator val)
                                 (mk_ShaderBlob data size))) = true ->
   dxil_validate_module w val data size (Some e0) =
     ((false, Some CNull),
      [EvValidate (dxc_validator val) (mk_ShaderBlob data size);
       EvGetStatus (Validate w (dxc_validator val) (mk_ShaderBlob data size));
       EvStoreError CNull;
       EvDebugPrintf ("DXIL: validation failed, but lacking IDxcLibrary"
                      ++ "from dxcompiler.dll for proper diagnostics." ++ nl)])).
Proof.
  split.
  - intros H. unfold dxil_disasm_module. run.
    assert (E : negb (nonnull (dxc_compiler val))
                || negb (nonnull (dxc_library val)) = true).
    { destruct H as [H|H]; apply nonnull_false in H; rewrite H;
        cbn; rewrite ?orb_true_r; reflexivity. }
    rewrite E. reflexivity.
  - intros Hl Hhr. rewrite dxil_validate_module_eq. cbv zeta.
    rewrite Hhr. cbn [andb requested].
    apply nonnull_false in Hl. rewrite Hl. reflexivity.
Qed.

Lemma diagnostics_absent_witness :
  fst (dxil_disasm_module DxilExamples.bare_world DxilExamples.bare_context
         DxilExamples.good_bytecode 16) = CNull /\
  fst (dxil_disasm_module DxilExamples.compiler_only_world
         DxilExamples.compiler_only_context
         DxilExamples.good_bytecode 16) = CNull /\
  fst (dxil_validate_module DxilExamples.bare_world DxilExamples.bare_context
         DxilExamples.bad_bytecode 16 (Some CIndeterminate)) =
    (false, Some CNull).
Proof.
  split; [|split].
  - destruct (diagnostics_absent DxilExamples.bare_world
                DxilExamples.bare_context DxilExamples.good_bytecode 16 CNull)
      as [H _].
    rewrite H; [reflexivity | left; reflexivity].
  - destruct (diagnostics_absent DxilExamples.compiler_only_world
                DxilExamples.compiler_only_context
                DxilExamples.good_bytecode 16 CNull) as [H _].
    rewrite H; [reflexivity | right; reflexivity].
  - destruct (diagnostics_absent DxilExamples.bare_world
                DxilExamples.bare_context DxilExamples.bad_bytecode 16
                CIndeterminate) as [_ H].
    rewrite H; reflexivity.
Defined.

(** ** The copied text *)

Lemma store_last (buf : list Byte.byte) (b : Byte.byte) :
  buf <> [] -> Z.of_nat (List.length buf) < 2 ^ 64 ->
  store_byte buf (size_t_wrap (Z.of_nat (List.length buf) - 1)) b =
    Some (removelast buf ++ [b]).
Proof.
  intros Hne Hsz.
  assert (Hlen : (0 < List.length buf)%nat)
    by (destruct buf; [contradiction | cbn; lia]).
  unfold store_byte, size_t_wrap.
  rewrite Z.mod_small by lia.
  destruct (Z.leb_spec 0 (Z.of_nat (List.length buf) - 1)); [|lia].
  destruct (Z.ltb_spec (Z.of_nat (List.length buf) - 1)
                       (Z.of_nat (List.length buf))); [|lia].
  cbn [andb].
  replace (Z.to_nat (Z.of_nat (List.length buf) - 1))
    with (pred (List.length buf)) by lia.
  replace (S (pred (List.length buf))) with (List.length buf) by lia.
  rewrite skipn_all, <- removelast_firstn_len. reflexivity.
Qed.

Lemma strlen_until_nul (l : list Byte.byte) :
  strlen (l ++ [Byte.x00]) = Some (List.length (until_nul l)) /\
  firstn (List.length (until_nul l)) (l ++ [Byte.x00]) = until_nul l.
Proof.
  induction l as [|b l [IH1 IH2]]; cbn.
  - split; reflexivity.
  - destruct (Byte.eqb b Byte.x00).
    + split; reflexivity.
    + rewrite IH1. cbn. rewrite IH2. split; reflexivity.
Qed.

Lemma until_nul_shape (l : list Byte.byte) :
  Forall (fun b => b <> Byte.x00) (until_nul l) /\
  (exists rest, l = until_nul l ++ rest) /\
  (Forall (fun b => b <> Byte.x00) l -> until_nul l = l).
Proof.
  induction l as [|b l (IH1 & (rest & IH2) & IH3)]; cbn.
  - split; [constructor | split; [exists []; reflexivity | reflexivity]].
  - destruct (Byte.eqb b Byte.x00) eqn:E.
    + apply Byte.byte_dec_bl in E. subst b.
      split; [constructor | split; [eexists; reflexivity|]].
      intros H. inversion H. congruence.
    + assert (b <> Byte.x00).
      { intros ->. rewrite (Byte.byte_dec_lb eq_refl) in E. discriminate. }
      split; [constructor; assumption|].
      split; [exists rest; cbn; f_equal; exact IH2|].
      intros H'. inversion H'. f_equal. auto.
Qed.

(** C2, as the code has it.  Let the converted text be a buffer [buf] of
    at least one byte whose size is a [size_t], and let the arena have
    memory.  The string handed back is a fresh child of the context holding
    the bytes of [buf] other than the last, up to the first zero among them,
    followed by one terminator: the last byte of [buf] is overwritten,
    whatever it was.  That is what a failed validation stores through
    [error] when every diagnostics step succeeds, and what disassembly
    returns when both of its steps succeed.  The copy holds no zero before
    its terminator, is a prefix of [buf] without its last byte, and is all
    of it when that has no zero.  It is the empty string exactly when [buf]
    has one byte or starts with a zero. *)
Theorem decoded_text_copy (w : World) (val : dxil_validator)
    (buf : list Byte.byte) :
  buf <> [] ->
  Z.of_nat (List.length buf) < 2 ^ 64 ->
  ralloc_strdup_succeeds w = true ->
  let body := until_nul (removelast buf) in
  let s := CStr (body ++ [Byte.x00]) in
  terminate_and_strdup w val buf = (s, [EvRallocStrdup val s])
  /\
  (forall data size e0,
     let result := Validate w (dxc_validator val) (mk_ShaderBlob data size) in
     FAILED (GetStatus w result) = true ->
     diagnostics_succeed w val result = true ->
     snd (GetBlobAsUtf8 w (dxc_library val) (snd (GetErrorBuffer w result)))
       = buf ->
     fst (dxil_validate_module w val data size (Some e0)) = (false, Some s))
  /\
  (forall data size,
     let r := Disassemble w (dxc_compiler val) (mk_ShaderBlob data size) in
     dxc_compiler val <> NULL -> dxc_library val <> NULL ->
     FAILED (fst r) = false ->
     FAILED (fst (GetBlobAsUtf8 w (dxc_library val) (snd r))) = false ->
     snd (GetBlobAsUtf8 w (dxc_library val) (snd r)) = buf ->
     fst (dxil_disasm_module w val data size) = s)
  /\
  Forall (fun b => b <> Byte.x00) body
  /\
  (exists rest, removelast buf = body ++ rest)
  /\
  (Forall (fun b => b <> Byte.x00) (removelast buf) -> body = removelast buf)
  /\
  (body = [] <-> List.length buf = 1%nat \/ hd Byte.x00 buf = Byte.x00).
Proof.
  intros Hne Hsz Hmem body s.
  assert (Hcopy : terminate_and_strdup w val buf = (s, [EvRallocStrdup val s])).
  { unfold terminate_and_strdup, ralloc_strdup, call.
    rewrite (store_last buf Byte.x00 Hne Hsz), Hmem. cbn [negb].
    destruct (strlen_until_nul (removelast buf)) as [-> ->]. reflexivity. }
  destruct (until_nul_shape (removelast buf)) as (Hnz & Hpre & Hall).
  split; [exact Hcopy|].
  split; [|split; [|split; [exact Hnz | split; [exact Hpre | split; [exact Hall|]]]]].
  - intros data size e0 result Hhr Hd Hbuf.
    rewrite dxil_validate_module_eq. cbv zeta. fold result.
    unfold diagnostics_succeed in Hd.
    apply andb_prop in Hd. destruct Hd as [Hd H3].
    apply andb_prop in Hd. destruct Hd as [H1 H2].
    apply negb_true_iff in H2, H3.
    rewrite Hhr, H1, H2, H3, Hbuf, Hcopy, FAILED_SUCCEEDED, Hhr. reflexivity.
  - intros data size r Hc Hl Hr Hu Hbuf.
    apply nonnull_true in Hc, Hl.
    unfold dxil_disasm_module. run. fold r.
    rewrite Hc, Hl. cbn [negb orb]. rewrite Hr. cbn [fst snd].
    rewrite Hu, Hbuf, Hcopy. reflexivity.
  - unfold body. destruct buf as [|a [|b buf']]; [contradiction | |].
    + cbn. split; [left; reflexivity | reflexivity].
    + cbn [removelast until_nul hd List.length].
      destruct (Byte.eqb a Byte.x00) eqn:E.
      * apply Byte.byte_dec_bl in E. split; [right; exact E | reflexivity].
      * split; [discriminate|].
        intros [H|H]; [discriminate|].
        subst a. rewrite (Byte.byte_dec_lb eq_refl) in E. discriminate.
Qed.

Lemma decoded_text_copy_witness :
  fst (dxil_validate_module
         (DxilExamples.text_world (DxilExamples.text "bad phi"))
         DxilExamples.full_context DxilExamples.bad_bytecode 16 (Some CNull)) =
    (false, Some (CStr (DxilExamples.text "bad ph" ++ [Byte.x00])))
  /\
  fst (dxil_disasm_module
         (DxilExamples.text_world (DxilExamples.text "bad phi"))
         DxilExamples.full_context DxilExamples.good_bytecode 16) =
    CStr (DxilExamples.text "bad ph" ++ [Byte.x00]).
Proof.
  destruct (decoded_text_copy
              (DxilExamples.text_world (DxilExamples.text "bad phi"))
              DxilExamples.full_context (DxilExamples.text "bad phi"))
    as (_ & Hv & Hd & _).
  - discriminate.
  - reflexivity.
  - reflexivity.
  - split.
    + apply (Hv DxilExamples.bad_bytecode 16 CNull); reflexivity.
    + apply (Hd DxilExamples.good_bytecode 16);
        first [discriminate | reflexivity].
Defined.

(** C2 as stated fails on a converted text of one byte: diagnostics are
    available, validation fails, an error message is asked for, and the
    string stored is the empty string; disassembly of an accepted buffer
    gives the empty string too. *)
Lemma decoded_text_one_byte :
  fst (dxil_create_validator (DxilExamples.text_world [Byte.x41]) 7) =
    Some DxilExamples.full_context /\
  fst (dxil_validate_module (DxilExamples.text_world [Byte.x41])
         DxilExamples.full_context DxilExamples.bad_bytecode 16 (Some CNull)) =
    (false, Some (CStr [Byte.x00])) /\
  fst (dxil_disasm_module (DxilExamples.text_world [Byte.x41])
         DxilExamples.full_context DxilExamples.good_bytecode 16) =
    CStr [Byte.x00].
Proof. repeat split; vm_compute; reflexivity. Qed.

(** On a converted text of no bytes the terminator is stored at index
    [SIZE_MAX], outside the buffer, and the string handed back is
    indeterminate. *)
Example decoded_text_empty :
  size_t_wrap (0 - 1) = 2 ^ 64 - 1 /\
  store_byte [] (size_t_wrap (0 - 1)) Byte.x00 = None /\
  fst (dxil_validate_module (DxilExamples.text_world [])
         DxilExamples.full_context DxilExamples.bad_bytecode 16 (Some CNull)) =
    (false, Some CIndeterminate).
Proof. repeat split; vm_compute; reflexivity. Qed.

(** ** The blob adapter *)

(** C8. Through any sequence of calls a [ShaderBlob] keeps the pointer and
    size it was built with; [AddRef] answers 1 and [Release] answers 0 each
    time; [QueryInterface] answers [E_NOINTERFACE], a failure, whatever is
    asked for; [GetBufferPointer] and [GetBufferSize] answer the pointer
    and the size given to the constructor. *)
Theorem ShaderBlob_calls (data : ptr) (size : Z) (cs : list blob_call) :
  let b := mk_ShaderBlob data size in
  snd (blob_run b cs) = b /\
  fst (blob_run b cs) = map (blob_answer b) cs /\
  fst (GetBufferPointer (snd (blob_run b cs))) = data /\
  fst (GetBufferSize (snd (blob_run b cs))) = size /\
  FAILED E_NOINTERFACE = true.
Proof.
  intros b.
  assert (H : snd (blob_run b cs) = b /\ fst (blob_run b cs) = map (blob_answer b) cs).
  { induction cs as [|c cs [IH1 IH2]]; [split; reflexivity|].
    cbn [blob_run map].
    assert (Hs : snd (blob_step b c) = b) by (destruct c; reflexivity).
    rewrite Hs. cbn [fst snd]. rewrite IH1, IH2.
    split; [reflexivity | destruct c; reflexivity]. }
  destruct H as [H1 H2]. rewrite H1.
  repeat split; assumption || reflexivity.
Qed.

End DxilProps.

(** * Properties of the pool upload *)

Module PanPoolProps.

Import PanPool.

Section Pool.

Variable pan_pool : Type.
Variable pan_pool_alloc_aligned : pan_pool -> Z -> Z -> pan_pool * panfrost_ptr.

(** C10. [pan_pool_upload] is [pan_pool_upload_aligned] called with the
    size as alignment: same address returned, same pool, same memory.  The
    allocation asked of the pool has that size and, as alignment, the size
    converted to [unsigned]; the address returned is the GPU address of that
    allocation; the [sz] bytes at its CPU address are those at [data], and
    every other byte of memory is as before. *)
Theorem pan_pool_upload_is_aligned_upload (pool : pan_pool) (m : memory)
    (data sz : Z) :
  pan_pool_upload pan_pool pan_pool_alloc_aligned pool m data sz =
    pan_pool_upload_aligned pan_pool pan_pool_alloc_aligned pool m data sz sz
  /\
  let r := pan_pool_alloc_aligned pool sz (to_unsigned sz) in
  let out := pan_pool_upload pan_pool pan_pool_alloc_aligned pool m data sz in
  fst (fst out) = gpu (snd r) /\
  snd (fst out) = fst r /\
  (forall i, 0 <= i < sz -> snd out (cpu (snd r) + i) = m (data + i)) /\
  (forall a, a < cpu (snd r) \/ cpu (snd r) + sz <= a -> snd out a = m a).
Proof.
  split; [reflexivity|].
  cbv zeta. unfold pan_pool_upload, pan_pool_upload_aligned. cbn [fst snd].
  repeat split.
  - intros i Hi. unfold memcpy.
    destruct (Z.leb_spec (cpu (snd (pan_pool_alloc_aligned pool sz (to_unsigned sz))))
                         (cpu (snd (pan_pool_alloc_aligned pool sz (to_unsigned sz))) + i));
      [|lia].
    destruct (Z.ltb_spec (cpu (snd (pan_pool_alloc_aligned pool sz (to_unsigned sz))) + i)
                         (cpu (snd (pan_pool_alloc_aligned pool sz (to_unsigned sz))) + sz));
      [|lia].
    cbn [andb]. f_equal. lia.
  - intros a Ha. unfold memcpy.
    destruct (Z.leb_spec (cpu (snd (pan_pool_alloc_aligned pool sz (to_unsigned sz)))) a);
      destruct (Z.ltb_spec a (cpu (snd (pan_pool_alloc_aligned pool sz (to_unsigned sz))) + sz));
      cbn [andb]; try reflexivity; lia.
Qed.

(** For sizes below [2^32] the alignment asked for is the size itself. *)
Remark to_unsigned_small (sz : Z) : 0 <= sz < 2 ^ 32 -> to_unsigned sz = sz.
Proof. intros H. unfold to_unsigned. apply Z.mod_small. exact H. Qed.

End Pool.

Lemma pan_pool_upload_is_aligned_upload_witness :
  fst (fst (pan_pool_upload Z PanPoolExamples.bump_alloc 10
              PanPoolExamples.filled 64 16)) = 0x8000 + 16 /\
  snd (pan_pool_upload Z PanPoolExamples.bump_alloc 10
         PanPoolExamples.filled 64 16) (0x1000 + 16 + 3) = Byte.x2a.
Proof.
  destruct (pan_pool_upload_is_aligned_upload Z PanPoolExamples.bump_alloc 10
              PanPoolExamples.filled 64 16) as (_ & Hg & _ & Hc & _).
  split; [exact Hg|].
  apply (Hc 3). split; [discriminate | reflexivity].
Defined.

End PanPoolProps.

(** * Further properties of the validator wrapper *)

Module DxilExtra.

Import DxilValidator.
Import DxilProps.
Local Open Scope dxil_scope.

(** ** Projections and concatenation *)

Lemma loaded_app (w : World) (t u : trace) :
  loaded w (t ++ u) = loaded w t ++ loaded w u.
Proof.
  induction t as [|e t IH]; cbn [app loaded]; [reflexivity|].
  destruct e; rewrite ?IH, <- ?app_assoc; reflexivity.
Qed.

Lemma created_app (w : World) (t u : trace) :
  created w (t ++ u) = created w t ++ created w u.
Proof.
  induction t as [|e t IH]; cbn [app created]; [reflexivity|].
  destruct e; rewrite ?IH, <- ?app_assoc; reflexivity.
Qed.



(** ** Validation: what a call costs *)


(** ** Disassembly: outcomes *)



(** ** The loader: what it loads and what it says *)

Lemma filter_nonnull_one (p : Z) :
  filter nonnull [p] = if nonnull p then [p] else [].
Proof. reflexivity. Qed.

(** [load_dxil_mod] holds on to nothing but the module it returns. *)
Lemma load_dxil_mod_loaded (w : World) :
  loaded w (snd (load_dxil_mod w)) = filter nonnull [fst (load_dxil_mod w)] /\
  created w (snd (load_dxil_mod w)) = [].
Proof.
  unfold load_dxil_mod, GetModuleFileNameA. run.
  destruct (nonnull (LoadLibraryA w "DXIL.dll")) eqn:H0; cbn [fst snd].
  - cbn [loaded created app]. rewrite app_nil_r. split; reflexivity.
  - cbn [loaded created filter]. rewrite H0. cbn [app].
    destruct (_ || _); cbn [fst snd app loaded created];
      [split; reflexivity|].
    destruct (strrchr _ _); cbn [fst snd app loaded created];
      [|split; reflexivity].
    destruct (negb _); cbn [fst snd app loaded created];
      [split; reflexivity|].
    rewrite app_nil_r. split; reflexivity.
Qed.

(** X3. [load_dxil_mod] calls [LoadLibraryA] once or twice, the first time
    on the bare file name.  The modules those calls yield are exactly the
    module it returns: it returns null when it loaded none, and it never
    loads a module that it does not return.  It logs at most one message,
    and none when it returns a module. *)
Theorem load_dxil_mod_returns_what_it_loads (w : World) :
  loaded w (snd (load_dxil_mod w)) = filter nonnull [fst (load_dxil_mod w)]
  /\
  (exists rest,
     load_attempts (snd (load_dxil_mod w)) = "DXIL.dll"%string :: rest /\
     (List.length rest <= 1)%nat)
  /\
  (List.length (warnings (snd (load_dxil_mod w))) <= 1)%nat
  /\
  (fst (load_dxil_mod w) <> NULL -> warnings (snd (load_dxil_mod w)) = []).
Proof.
  split; [exact (proj1 (load_dxil_mod_loaded w))|].
  unfold load_dxil_mod, GetModuleFileNameA. run.
  destruct (nonnull (LoadLibraryA w "DXIL.dll")) eqn:H0; cbn [fst snd].
  { cbn. split; [exists []; split; [reflexivity | cbn; lia]|].
    split; [lia | reflexivity]. }
  destruct (_ || _); cbn [fst snd app].
  { cbn. split; [exists []; split; [reflexivity | cbn; lia]|].
    split; [lia | intros H; exfalso; apply H; reflexivity]. }
  destruct (strrchr _ _); cbn [fst snd app].
  2: { cbn. split; [exists []; split; [reflexivity | cbn; lia]|].
       split; [lia | intros H; exfalso; apply H; reflexivity]. }
  destruct (negb _); cbn [fst snd app].
  { cbn. split; [exists []; split; [reflexivity | cbn; lia]|].
    split; [lia | intros H; exfalso; apply H; reflexivity]. }
  cbn. split; [eexists [_]; split; [reflexivity | cbn; lia]|].
  split; [lia | reflexivity].
Qed.

Lemma load_dxil_mod_returns_what_it_loads_witness :
  warnings (snd (load_dxil_mod DxilExamples.side_by_side_world)) = [] /\
  loaded DxilExamples.side_by_side_world
         (snd (load_dxil_mod DxilExamples.side_by_side_world)) =
    [DxilExamples.h_dxil].
Proof.
  destruct (load_dxil_mod_returns_what_it_loads DxilExamples.side_by_side_world)
    as (H1 & _ & _ & H2).
  split; [apply H2; discriminate | exact H1].
Defined.

(** ** Construction and destruction together *)

Lemma create_dxc_validator_created (w : World) (h : HMODULE) :
  loaded w (snd (create_dxc_validator w h)) = [] /\
  (fst (create_dxc_validator w h) <> NULL ->
   created w (snd (create_dxc_validator w h)) = [fst (create_dxc_validator w h)]) /\
  (stores_null_on_failure w -> fst (create_dxc_validator w h) = NULL ->
   created w (snd (create_dxc_validator w h)) = []).
Proof.
  unfold create_dxc_validator. run.
  destruct (nonnull (GetProcAddress w h "DxcCreateInstance")); cbn [negb fst snd].
  2: { cbn. split; [reflexivity|]. split; [congruence | reflexivity]. }
  destruct (FAILED (fst (DxcCreateInstance w _ CLSID_DxcValidator))) eqn:Hf;
    cbn [fst snd app loaded created].
  - split; [reflexivity|]. split; [congruence|].
    intros Hc _. rewrite (Hc _ _ Hf). reflexivity.
  - split; [reflexivity|]. rewrite app_nil_r, filter_nonnull_one. split.
    + intros Hv. apply nonnull_true in Hv. rewrite Hv. reflexivity.
    + intros _ Hv. apply nonnull_false in Hv. rewrite Hv. reflexivity.
Qed.

Lemma create_diagnostics_created (w : World) (val : dxil_validator) :
  loaded w (snd (create_diagnostics w val)) = [] /\
  (dxc_library val = NULL -> dxc_compiler val = NULL ->
   created w (snd (create_diagnostics w val)) =
     filter nonnull [dxc_library (fst (create_diagnostics w val));
                     dxc_compiler (fst (create_diagnostics w val))]).
Proof.
  rewrite create_diagnostics_eq. cbv zeta.
  destruct (nonnull (GetProcAddress w (dxcompiler_mod val) "DxcCreateInstance"));
    cbn [fst snd].
  - split.
    + destruct (FAILED _), (FAILED _); reflexivity.
    + intros _ _.
      cbn [set_dxc_compiler set_dxc_library dxc_library dxc_compiler].
      destruct (FAILED (fst (DxcCreateInstance w _ CLSID_DxcLibrary))),
               (FAILED (fst (DxcCreateInstance w _ CLSID_DxcCompiler)));
        cbn [app created filter];
        destruct (nonnull (snd (DxcCreateInstance w _ CLSID_DxcLibrary))),
                 (nonnull (snd (DxcCreateInstance w _ CLSID_DxcCompiler)));
        reflexivity.
  - split; [reflexivity|]. intros -> ->. reflexivity.
Qed.

Lemma Some_eq {A : Type} (a b : A) : Some a = Some b -> a = b.
Proof. congruence. Qed.

(** What [dxil_destroy_validator] unloads and releases, on any context. *)
Lemma dxil_destroy_validator_frees (val : dxil_validator) :
  unloaded (snd (dxil_destroy_validator val)) =
    dxil_mod val :: filter nonnull [dxcompiler_mod val] /\
  released (snd (dxil_destroy_validator val)) =
    dxc_validator val ::
    (if nonnull (dxcompiler_mod val)
     then filter nonnull [dxc_library val; dxc_compiler val] else []).
Proof.
  unfold dxil_destroy_validator. run. cbn [filter].
  destruct (nonnull (dxcompiler_mod val)); cbn [fst snd app];
    [|split; reflexivity].
  destruct (nonnull (dxc_library val)), (nonnull (dxc_compiler val));
    split; reflexivity.
Qed.

Lemma create_diagnostics_keeps (w : World) (val : dxil_validator) :
  dxil_mod (fst (create_diagnostics w val)) = dxil_mod val /\
  dxcompiler_mod (fst (create_diagnostics w val)) = dxcompiler_mod val /\
  dxc_validator (fst (create_diagnostics w val)) = dxc_validator val.
Proof.
  rewrite create_diagnostics_eq. cbv zeta.
  destruct (nonnull (GetProcAddress w _ _)); repeat split; reflexivity.
Qed.

Lemma create_diagnostics_frees_nothing (w : World) (val : dxil_validator) :
  unloaded (snd (create_diagnostics w val)) = [] /\
  released (snd (create_diagnostics w val)) = [].
Proof.
  rewrite create_diagnostics_eq. cbv zeta.
  destruct (nonnull (GetProcAddress w _ _)); cbn [snd]; [|split; reflexivity].
  destruct (FAILED _), (FAILED _); split; reflexivity.
Qed.

(** X4. No module handle is lost.  When [dxil_create_validator] returns
    null, the modules it unloaded are exactly the modules its
    [LoadLibraryA] calls yielded.  When it returns a context it has unloaded
    nothing, and [dxil_destroy_validator] on that context unloads exactly
    the modules construction loaded, each once and in the order they were
    loaded. *)
Theorem library_balance (w : World) (ctx : ptr) :
  (fst (dxil_create_validator w ctx) = None ->
   unloaded (snd (dxil_create_validator w ctx)) =
     loaded w (snd (dxil_create_validator w ctx)))
  /\
  (forall val, fst (dxil_create_validator w ctx) = Some val ->
   unloaded (snd (dxil_create_validator w ctx)) = [] /\
   unloaded (snd (dxil_destroy_validator val)) =
     loaded w (snd (dxil_create_validator w ctx))).
Proof.
  rewrite dxil_create_validator_eq. cbv zeta.
  destruct (load_dxil_mod_loaded w) as [Hl _].
  destruct (load_dxil_mod_frees_nothing w) as [Hu _].
  destruct (rzalloc_succeeds w); cbn [negb fst snd].
  2: { split; [reflexivity | discriminate]. }
  destruct (nonnull (fst (load_dxil_mod w))) eqn:Hh; cbn [negb fst snd].
  2: { split; [|discriminate]. intros _.
       cbn [unloaded loaded]. rewrite unloaded_app, loaded_app, Hu, Hl.
       cbn [filter]. rewrite Hh. reflexivity. }
  destruct (create_dxc_validator_frees_nothing w (fst (load_dxil_mod w)))
    as (Hu' & _ & _).
  destruct (create_dxc_validator_created w (fst (load_dxil_mod w)))
    as (Hl' & _ & _).
  destruct (nonnull (fst (create_dxc_validator w _))) eqn:Hv;
    cbn [negb fst snd].
  2: { split; [|discriminate]. intros _.
       cbn [unloaded loaded].
       rewrite !unloaded_app, !loaded_app, Hu, Hl, Hu', Hl'.
       cbn [filter]. rewrite Hh. reflexivity. }
  destruct (nonnull (LoadLibraryA w "dxcompiler.dll")) eqn:Hm; cbn [fst snd].
  - split; [discriminate|]. intros val Hval. apply Some_eq in Hval. subst val.
    destruct (create_diagnostics_frees_nothing w
                (mk_dxil_validator (fst (load_dxil_mod w))
                   (LoadLibraryA w "dxcompiler.dll")
                   (fst (create_dxc_validator w (fst (load_dxil_mod w))))
                   NULL NULL)) as [Hud _].
    destruct (create_diagnostics_created w
                (mk_dxil_validator (fst (load_dxil_mod w))
                   (LoadLibraryA w "dxcompiler.dll")
                   (fst (create_dxc_validator w (fst (load_dxil_mod w))))
                   NULL NULL)) as [Hld _].
    destruct (create_diagnostics_keeps w
                (mk_dxil_validator (fst (load_dxil_mod w))
                   (LoadLibraryA w "dxcompiler.dll")
                   (fst (create_dxc_validator w (fst (load_dxil_mod w))))
                   NULL NULL)) as (K1 & K2 & _).
    rewrite (proj1 (dxil_destroy_validator_frees _)), K1, K2.
    cbn [dxil_mod dxcompiler_mod unloaded loaded app].
    rewrite !unloaded_app, !loaded_app, Hu, Hl, Hu', Hl', Hud, Hld.
    cbn [unloaded loaded filter app]. rewrite Hh, Hm. split; reflexivity.
  - split; [discriminate|]. intros val Hval. apply Some_eq in Hval. subst val.
    rewrite (proj1 (dxil_destroy_validator_frees _)).
    cbn [dxil_mod dxcompiler_mod unloaded loaded app].
    rewrite !unloaded_app, !loaded_app, Hu, Hl, Hu', Hl'.
    cbn [unloaded loaded filter app]. rewrite Hh, Hm. split; reflexivity.
Qed.

Lemma library_balance_witness :
  unloaded (snd (dxil_create_validator DxilExamples.no_validator_world 7)) =
    loaded DxilExamples.no_validator_world
           (snd (dxil_create_validator DxilExamples.no_validator_world 7))
  /\
  unloaded (snd (dxil_destroy_validator DxilExamples.full_context)) =
    loaded DxilExamples.full_world
           (snd (dxil_create_validator DxilExamples.full_world 7)).
Proof.
  split.
  - apply (proj1 (library_balance DxilExamples.no_validator_world 7)).
    reflexivity.
  - apply (proj2 (library_balance DxilExamples.full_world 7)
                 DxilExamples.full_context).
    reflexivity.
Defined.

(** X5. No service reference is lost or released twice.  When
    [dxil_create_validator] returns a context it has released nothing, and
    [dxil_destroy_validator] on that context releases exactly the non-null
    objects the factory calls of construction stored, each once and in the
    order they were stored.  When it returns null it has released nothing;
    and nothing was there to release if the factories store null when they
    fail. *)
Theorem service_balance (w : World) (ctx : ptr) :
  (forall val, fst (dxil_create_validator w ctx) = Some val ->
   released (snd (dxil_create_validator w ctx)) = [] /\
   released (snd (dxil_destroy_validator val)) =
     created w (snd (dxil_create_validator w ctx)))
  /\
  (fst (dxil_create_validator w ctx) = None ->
   released (snd (dxil_create_validator w ctx)) = [] /\
   (stores_null_on_failure w ->
    created w (snd (dxil_create_validator w ctx)) = [])).
Proof.
  rewrite dxil_create_validator_eq. cbv zeta.
  destruct (load_dxil_mod_loaded w) as [_ Hc].
  destruct (load_dxil_mod_frees_nothing w) as [_ Hr].
  destruct (rzalloc_succeeds w); cbn [negb fst snd].
  2: { split; [discriminate|]. intros _. split; reflexivity. }
  destruct (nonnull (fst (load_dxil_mod w))) eqn:Hh; cbn [negb fst snd].
  2: { split; [discriminate|]. intros _.
       cbn [released created]. rewrite released_app, created_app, Hr, Hc.
       split; reflexivity. }
  destruct (create_dxc_validator_frees_nothing w (fst (load_dxil_mod w)))
    as (_ & Hr' & _).
  destruct (create_dxc_validator_created w (fst (load_dxil_mod w)))
    as (_ & Hc1 & Hc0).
  destruct (nonnull (fst (create_dxc_validator w _))) eqn:Hv;
    cbn [negb fst snd].
  2: { split; [discriminate|]. intros _.
       apply nonnull_false in Hv.
       cbn [released created].
       rewrite !released_app, !created_app, Hr, Hc, Hr'.
       split; [reflexivity|]. intros Hs. rewrite (Hc0 Hs Hv). reflexivity. }
  pose proof (Hc1 (proj1 (nonnull_true _) Hv)) as Hc1'.
  destruct (nonnull (LoadLibraryA w "dxcompiler.dll")) eqn:Hm; cbn [fst snd].
  - split; [|discriminate]. intros val Hval. apply Some_eq in Hval. subst val.
    destruct (create_diagnostics_frees_nothing w
                (mk_dxil_validator (fst (load_dxil_mod w))
                   (LoadLibraryA w "dxcompiler.dll")
                   (fst (create_dxc_validator w (fst (load_dxil_mod w))))
                   NULL NULL)) as [_ Hrd].
    destruct (create_diagnostics_created w
                (mk_dxil_validator (fst (load_dxil_mod w))
                   (LoadLibraryA w "dxcompiler.dll")
                   (fst (create_dxc_validator w (fst (load_dxil_mod w))))
                   NULL NULL)) as [_ Hcd].
    destruct (create_diagnostics_keeps w
                (mk_dxil_validator (fst (load_dxil_mod w))
                   (LoadLibraryA w "dxcompiler.dll")
                   (fst (create_dxc_validator w (fst (load_dxil_mod w))))
                   NULL NULL)) as (_ & K2 & K3).
    rewrite (proj2 (dxil_destroy_validator_frees _)), K2, K3.
    cbn [dxc_validator dxcompiler_mod released created app].
    rewrite !released_app, !created_app, Hr, Hc, Hr', Hc1', Hrd,
            (Hcd eq_refl eq_refl), Hm.
    split; reflexivity.
  - split; [|discriminate]. intros val Hval. apply Some_eq in Hval. subst val.
    rewrite (proj2 (dxil_destroy_validator_frees _)).
    cbn [dxc_validator dxcompiler_mod released created app].
    rewrite !released_app, !created_app, Hr, Hc, Hr', Hc1', Hm.
    split; reflexivity.
Qed.

Lemma service_balance_witness :
  released (snd (dxil_destroy_validator DxilExamples.compiler_only_context)) =
    created DxilExamples.compiler_only_world
            (snd (dxil_create_validator DxilExamples.compiler_only_world 7))
  /\
  created DxilExamples.no_validator_world
          (snd (dxil_create_validator DxilExamples.no_validator_world 7)) = [].
Proof.
  split.
  - apply (proj1 (service_balance DxilExamples.compiler_only_world 7)
                 DxilExamples.compiler_only_context).
    reflexivity.
  - destruct (service_balance DxilExamples.no_validator_world 7) as [_ H].
    destruct (H eq_refl) as [_ H']. apply H'.
    intros f c. destruct c; intros Hf; try reflexivity; discriminate Hf.
Defined.

(** ** Construction: failures and what they say *)

(** X6. A construction that fails has logged at least one message, with
    two exceptions: the context itself could not be allocated, or the
    validator factory reported success and stored null. *)
Theorem dxil_create_validator_silent_failures (w : World) (ctx : ptr) :
  let h := fst (load_dxil_mod w) in
  let f := GetProcAddress w h "DxcCreateInstance" in
  let r := DxcCreateInstance w f CLSID_DxcValidator in
  fst (dxil_create_validator w ctx) = None ->
  warnings (snd (dxil_create_validator w ctx)) = [] ->
  rzalloc_succeeds w = false \/
  (h <> NULL /\ f <> NULL /\ FAILED (fst r) = false /\ snd r = NULL).
Proof.
  intros h f r. rewrite dxil_create_validator_eq. cbv zeta. fold h.
  destruct (rzalloc_succeeds w); cbn [negb fst snd]; [|left; reflexivity].
  destruct (nonnull h) eqn:Hh; cbn [negb fst snd].
  2: { intros _ Hw. exfalso. cbn [warnings] in Hw.
       rewrite warnings_app in Hw. apply app_eq_nil in Hw.
       destruct Hw as [_ Hw]. discriminate Hw. }
  apply nonnull_true in Hh.
  destruct (nonnull (fst (create_dxc_validator w h))) eqn:Hv;
    cbn [negb fst snd].
  2: { intros _ Hw. right. cbn [warnings] in Hw.
       rewrite !warnings_app in Hw. apply app_eq_nil in Hw.
       destruct Hw as [_ Hw]. apply app_eq_nil in Hw. destruct Hw as [Hw _].
       apply nonnull_false in Hv. revert Hv Hw.
       unfold create_dxc_validator. run. fold f.
       destruct (nonnull f) eqn:Hf; cbn [negb fst snd]; [|discriminate].
       apply nonnull_true in Hf. fold r.
       destruct (FAILED (fst r)); cbn [fst snd]; [discriminate|].
       intros Hv _. repeat split; assumption. }
  destruct (nonnull (LoadLibraryA w "dxcompiler.dll")); discriminate.
Qed.

Lemma dxil_create_validator_silent_failures_witness :
  fst (load_dxil_mod (DxilExamples.hollow_factories DxilExamples.full_world))
    <> NULL /\
  snd (DxcCreateInstance
         (DxilExamples.hollow_factories DxilExamples.full_world)
         DxilExamples.f_dxil CLSID_DxcValidator) = NULL.
Proof.
  destruct (dxil_create_validator_silent_failures
              (DxilExamples.hollow_factories DxilExamples.full_world) 7
              eq_refl eq_refl) as [H | (Hh & _ & _ & Hs)].
  - discriminate H.
  - split; [exact Hh | exact Hs].
Defined.

(** ** A context without diagnostics *)

(** The diagnostics services of a constructed context are null when
    dxcompiler.dll did not load or lacks the factory symbol. *)
Lemma dxil_create_validator_no_services (w : World) (ctx : ptr)
    (val : dxil_validator) :
  fst (dxil_create_validator w ctx) = Some val ->
  LoadLibraryA w "dxcompiler.dll" = NULL \/
  GetProcAddress w (LoadLibraryA w "dxcompiler.dll") "DxcCreateInstance" = NULL ->
  dxc_library val = NULL /\ dxc_compiler val = NULL.
Proof.
  rewrite dxil_create_validator_eq. cbv zeta.
  destruct (rzalloc_succeeds w); cbn [negb fst]; [|discriminate].
  destruct (nonnull (fst (load_dxil_mod w))); cbn [negb fst]; [|discriminate].
  destruct (nonnull (fst (create_dxc_validator w _))); cbn [negb fst];
    [|discriminate].
  destruct (nonnull (LoadLibraryA w "dxcompiler.dll")) eqn:Hm; cbn [fst].
  - rewrite create_diagnostics_eq. cbv zeta. cbn [dxcompiler_mod].
    destruct (nonnull (GetProcAddress w _ _)) eqn:Hf; cbn [fst].
    + apply nonnull_true in Hm, Hf. intros _ [H|H]; contradiction.
    + intros Hval _. apply Some_eq in Hval. subst val. split; reflexivity.
  - intros Hval _. apply Some_eq in Hval. subst val. split; reflexivity.
Qed.

(** X7. On a machine where dxcompiler.dll does not load, or loads without
    its factory symbol, every context that [dxil_create_validator] returns
    behaves the same for every buffer: [dxil_disasm_module] returns null,
    [dxil_validate_module] never allocates in the arena, and a rejected
    buffer with an [error] pointer yields false with null stored. *)
Theorem without_dxcompiler (w : World) (ctx : ptr) (val : dxil_validator)
    (data : ptr) (size : Z) :
  fst (dxil_create_validator w ctx) = Some val ->
  LoadLibraryA w "dxcompiler.dll" = NULL \/
  GetProcAddress w (LoadLibraryA w "dxcompiler.dll") "DxcCreateInstance" = NULL ->
  fst (dxil_disasm_module w val data size) = CNull
  /\
  (forall error,
     allocations (snd (dxil_validate_module w val data size error)) = [])
  /\
  (forall e0,
     FAILED (GetStatus w (Validate w (dxc_validator val)
                                   (mk_ShaderBlob data size))) = true ->
     fst (dxil_validate_module w val data size (Some e0)) = (false, Some CNull)).
Proof.
  intros Hc Hm.
  destruct (dxil_create_validator_no_services w ctx val Hc Hm) as [Hl Hcomp].
  apply nonnull_false in Hl, Hcomp.
  split; [|split].
  - unfold dxil_disasm_module. run. rewrite Hl, Hcomp. reflexivity.
  - intros error. rewrite dxil_validate_module_eq. cbv zeta. rewrite Hl.
    destruct (FAILED _ && requested error); reflexivity.
  - intros e0 Hhr. rewrite dxil_validate_module_eq. cbv zeta.
    rewrite Hhr, Hl. reflexivity.
Qed.

Lemma without_dxcompiler_witness :
  fst (dxil_disasm_module DxilExamples.no_compiler_factory_world
         DxilExamples.no_compiler_factory_context
         DxilExamples.good_bytecode 16) = CNull
  /\
  fst (dxil_validate_module DxilExamples.bare_world DxilExamples.bare_context
         DxilExamples.bad_bytecode 16 (Some CIndeterminate)) =
    (false, Some CNull).
Proof.
  split.
  - apply (without_dxcompiler DxilExamples.no_compiler_factory_world 7
             DxilExamples.no_compiler_factory_context
             DxilExamples.good_bytecode 16 eq_refl).
    right. reflexivity.
  - destruct (without_dxcompiler DxilExamples.bare_world 7
                DxilExamples.bare_context DxilExamples.bad_bytecode 16 eq_refl)
      as (_ & _ & H); [left; reflexivity|].
    apply H. reflexivity.
Defined.

Example create_without_memory :
  dxil_create_validator (DxilExamples.out_of_contexts DxilExamples.full_world) 7
    = (None, [EvRzalloc 7]).
Proof. reflexivity. Qed.

(** ** The copied text, further *)

(** What the three shared lines hand back for a text of at least a byte. *)
Lemma terminate_and_strdup_value (w : World) (val : dxil_validator)
    (buf : list Byte.byte) :
  buf <> [] -> Z.of_nat (List.length buf) < 2 ^ 64 ->
  fst (terminate_and_strdup w val buf) =
    if ralloc_strdup_succeeds w
    then CStr (until_nul (removelast buf) ++ [Byte.x00])
    else CNull.
Proof.
  intros Hne Hsz. unfold terminate_and_strdup, ralloc_strdup, call.
  rewrite (store_last buf Byte.x00 Hne Hsz). cbn [fst].
  destruct (ralloc_strdup_succeeds w); cbn [negb]; [|reflexivity].
  destruct (strlen_until_nul (removelast buf)) as [-> ->]. reflexivity.
Qed.

Lemma until_nul_length (l : list Byte.byte) :
  (List.length (until_nul l) <= List.length l)%nat.
Proof.
  induction l as [|b l IH]; cbn; [lia|].
  destruct (Byte.eqb b Byte.x00); cbn; lia.
Qed.

Lemma removelast_length (l : list Byte.byte) :
  l <> [] -> S (List.length (removelast l)) = List.length l.
Proof.
  intros H. destruct (exists_last H) as (l' & a & ->).
  rewrite removelast_last, length_app. cbn. lia.
Qed.



(** X9. For a converted text of at least one byte the string handed back
    never has more bytes, terminator included, than the text had.  When the
    arena has memory: a text that ends in a zero byte and has no other is
    copied whole; a text with no zero byte at all loses exactly its last
    byte; and copying the copy again changes nothing. *)
Theorem copied_text_bounds (w : World) (val : dxil_validator)
    (buf : list Byte.byte) :
  buf <> [] -> Z.of_nat (List.length buf) < 2 ^ 64 ->
  let s := fst (terminate_and_strdup w val buf) in
  (List.length (bytes_of s) <= List.length buf)%nat
  /\
  (ralloc_strdup_succeeds w = true ->
   (forall text,
      Forall (fun b => b <> Byte.x00) text -> buf = text ++ [Byte.x00] ->
      s = CStr buf)
   /\
   (forall text last,
      Forall (fun b => b <> Byte.x00) text -> buf = text ++ [last] ->
      s = CStr (text ++ [Byte.x00]))
   /\
   fst (terminate_and_strdup w val (bytes_of s)) = s).
Proof.
  intros Hne Hsz s. unfold s.
  rewrite (terminate_and_strdup_value w val buf Hne Hsz).
  pose proof (until_nul_length (removelast buf)) as Hlen.
  pose proof (removelast_length buf Hne) as Hrl.
  split.
  - destruct (ralloc_strdup_succeeds w); cbn [bytes_of List.length]; [|lia].
    rewrite length_app. cbn [List.length]. lia.
  - intros Hmem. rewrite Hmem.
    assert (Hlast : forall text last,
              Forall (fun b => b <> Byte.x00) text -> buf = text ++ [last] ->
              CStr (until_nul (removelast buf) ++ [Byte.x00]) =
              CStr (text ++ [Byte.x00])).
    { intros text last Hz ->. rewrite removelast_last.
      rewrite (proj2 (proj2 (until_nul_shape text)) Hz). reflexivity. }
    split; [|split].
    + intros text Hz Hb. rewrite (Hlast text Byte.x00 Hz Hb), Hb. reflexivity.
    + exact Hlast.
    + cbn [bytes_of].
      assert (Hne' : until_nul (removelast buf) ++ [Byte.x00] <> [])
        by (intros H; apply app_eq_nil in H; destruct H; discriminate).
      assert (Hsz' : Z.of_nat (List.length
                       (until_nul (removelast buf) ++ [Byte.x00])) < 2 ^ 64).
      { rewrite length_app. cbn [List.length]. lia. }
      rewrite (terminate_and_strdup_value w val _ Hne' Hsz'), Hmem.
      rewrite removelast_last.
      rewrite (proj2 (proj2 (until_nul_shape (until_nul (removelast buf))))
                 (proj1 (until_nul_shape (removelast buf)))).
      reflexivity.
Qed.

Lemma copied_text_bounds_witness :
  fst (terminate_and_strdup DxilExamples.full_world DxilExamples.full_context
         (DxilExamples.text "bad phi" ++ [Byte.x00])) =
    CStr (DxilExamples.text "bad phi" ++ [Byte.x00])
  /\
  fst (terminate_and_strdup DxilExamples.full_world DxilExamples.full_context
         (DxilExamples.text "bad phi")) =
    CStr (DxilExamples.text "bad ph" ++ [Byte.x00]).
Proof.
  split.
  - destruct (copied_text_bounds DxilExamples.full_world
                DxilExamples.full_context
                (DxilExamples.text "bad phi" ++ [Byte.x00]))
      as (_ & H); [discriminate | reflexivity |].
    destruct (H eq_refl) as (Hw & _ & _).
    apply (Hw (DxilExamples.text "bad phi")); [|reflexivity].
    repeat constructor; discriminate.
  - destruct (copied_text_bounds DxilExamples.full_world
                DxilExamples.full_context (DxilExamples.text "bad phi"))
      as (_ & H); [discriminate | reflexivity |].
    destruct (H eq_refl) as (_ & Hl & _).
    apply (Hl (DxilExamples.text "bad ph") Byte.x69); [|reflexivity].
    repeat constructor; discriminate.
Defined.

End DxilExtra.

(** * Further properties of the pool upload *)

Module PanPoolExtra.

Import PanPool.

Section Pool.

Variable pan_pool : Type.
Variable pan_pool_alloc_aligned : pan_pool -> Z -> Z -> pan_pool * panfrost_ptr.

Lemma memcpy_inside (m : memory) (dst src n i : Z) :
  0 <= i < n -> memcpy m dst src n (dst + i) = m (src + i).
Proof.
  intros H. unfold memcpy.
  destruct (Z.leb_spec dst (dst + i)); [|lia].
  destruct (Z.ltb_spec (dst + i) (dst + n)); [|lia].
  cbn [andb]. f_equal. lia.
Qed.

Lemma memcpy_outside (m : memory) (dst src n a : Z) :
  a < dst \/ dst + n <= a -> memcpy m dst src n a = m a.
Proof.
  intros H. unfold memcpy.
  destruct (Z.leb_spec dst a), (Z.ltb_spec a (dst + n)); cbn [andb];
    try reflexivity; lia.
Qed.

(** X10. [pan_pool_upload_aligned] depends on its alignment argument only
    through the low 32 bits: alignments that differ by a multiple of [2^32]
    give the same address, pool and memory; so [pan_pool_upload] of [sz]
    bytes aligns to [sz mod 2^32].  An upload of no bytes still takes an
    allocation from the pool and returns its address, and leaves every byte
    of memory as it was. *)
Theorem pan_pool_upload_aligned_edges (pool : pan_pool) (m : memory)
    (data sz alignment : Z) :
  (forall k,
     pan_pool_upload_aligned pan_pool pan_pool_alloc_aligned pool m data sz
       (alignment + k * 2 ^ 32) =
     pan_pool_upload_aligned pan_pool pan_pool_alloc_aligned pool m data sz
       alignment)
  /\
  pan_pool_upload pan_pool pan_pool_alloc_aligned pool m data sz =
    pan_pool_upload_aligned pan_pool pan_pool_alloc_aligned pool m data sz
      (sz mod 2 ^ 32)
  /\
  (sz = 0 ->
   let r := pan_pool_alloc_aligned pool 0 (to_unsigned alignment) in
   let out :=
     pan_pool_upload_aligned pan_pool pan_pool_alloc_aligned pool m data sz
       alignment in
   fst out = (gpu (snd r), fst r) /\ forall a, snd out a = m a).
Proof.
  split; [|split].
  - intros k. unfold pan_pool_upload_aligned, to_unsigned.
    rewrite Z.mod_add by lia. reflexivity.
  - unfold pan_pool_upload, pan_pool_upload_aligned, to_unsigned.
    rewrite Z.mod_mod by lia. reflexivity.
  - intros -> r out. split; [reflexivity|].
    intros a. unfold out, pan_pool_upload_aligned. cbn [snd].
    apply memcpy_outside. lia.
Qed.

(** X11. Two uploads in a row, each from a source that does not overlap
    its destination, whose allocations do not overlap each other: after the
    second, the bytes of the first allocation are still the bytes the first
    upload copied there, and the bytes of the second are those its source
    held when it ran. *)
Theorem pan_pool_uploads_do_not_disturb (pool : pan_pool) (m : memory)
    (data1 sz1 alignment1 data2 sz2 alignment2 : Z) :
  let out1 :=
    pan_pool_upload_aligned pan_pool pan_pool_alloc_aligned pool m
      data1 sz1 alignment1 in
  let r1 := snd (pan_pool_alloc_aligned pool sz1 (to_unsigned alignment1)) in
  let out2 :=
    pan_pool_upload_aligned pan_pool pan_pool_alloc_aligned
      (snd (fst out1)) (snd out1) data2 sz2 alignment2 in
  let r2 :=
    snd (pan_pool_alloc_aligned (snd (fst out1)) sz2 (to_unsigned alignment2)) in
  data1 + sz1 <= cpu r1 \/ cpu r1 + sz1 <= data1 ->
  data2 + sz2 <= cpu r2 \/ cpu r2 + sz2 <= data2 ->
  cpu r1 + sz1 <= cpu r2 \/ cpu r2 + sz2 <= cpu r1 ->
  fst (fst out1) = gpu r1 /\
  fst (fst out2) = gpu r2 /\
  (forall i, 0 <= i < sz1 -> snd out2 (cpu r1 + i) = m (data1 + i)) /\
  (forall i, 0 <= i < sz2 -> snd out2 (cpu r2 + i) = snd out1 (data2 + i)).
Proof.
  intros out1 r1 out2 r2 _ _ Hd.
  split; [reflexivity | split; [reflexivity | split]].
  - intros i Hi. unfold out2, pan_pool_upload_aligned. cbn [fst snd].
    fold r1. fold r2.
    rewrite memcpy_outside by (fold r2 r1; cbn [fst snd] in *; lia).
    apply memcpy_inside. exact Hi.
  - intros i Hi. unfold out2, pan_pool_upload_aligned at 1. cbn [fst snd].
    apply memcpy_inside. exact Hi.
Qed.

End Pool.

Lemma pan_pool_upload_aligned_edges_witness :
  snd (pan_pool_upload_aligned Z PanPoolExamples.bump_alloc 10
         PanPoolExamples.filled 64 0 16) 0x1003 = Byte.x2a.
Proof.
  destruct (pan_pool_upload_aligned_edges Z PanPoolExamples.bump_alloc 10
              PanPoolExamples.filled 64 0 16) as (_ & _ & H).
  destruct (H eq_refl) as [_ H']. exact (H' 0x1003).
Defined.

Lemma pan_pool_uploads_do_not_disturb_witness :
  snd (pan_pool_upload_aligned Z PanPoolExamples.bump_alloc
         (snd (fst (pan_pool_upload_aligned Z PanPoolExamples.bump_alloc 0
                      PanPoolExamples.filled 64 16 16)))
         (snd (pan_pool_upload_aligned Z PanPoolExamples.bump_alloc 0
                 PanPoolExamples.filled 64 16 16))
         128 8 8) (0x1000 + 5) = Byte.x2a.
Proof.
  destruct (pan_pool_uploads_do_not_disturb Z PanPoolExamples.bump_alloc 0
              PanPoolExamples.filled 64 16 16 128 8 8)
    as (_ & _ & H & _).
  - left. discriminate.
  - left. discriminate.
  - left. discriminate.
  - apply (H 5). split; [discriminate | reflexivity].
Defined.

End PanPoolExtra.
